(** * Travel time and distance calculator: a shallow embedding of
      [distance_matrix_f.py] and the properties of its row pipeline.

    The script is a Streamlit page: it reads a CSV table of
    origin/destination coordinates, asks the Google Distance Matrix
    service for each row, and collects one record per row that went
    through.  The Python values the script inspects (the JSON response)
    are modelled as a small value type, the exceptions as a sum, the
    external collaborators (pandas, googlemaps, the clock) as the fields
    of an environment record, and the page output as a list of events. *)

From Stdlib Require Import String Ascii List Bool Arith ZArith Lia.
From Stdlib Require Import DecimalString DecimalNat.
Import ListNotations.
Local Open Scope string_scope.
Set Warnings "-register-all".

(** ** Exceptions *)

(** Decimal text of a row index and of an integer, as [str] gives it. *)
Definition str_nat (n : nat) : string := NilZero.string_of_uint (Nat.to_uint n).
Definition str_Z (z : Z) : string := NilZero.string_of_int (Z.to_int z).

(** The exceptions the script can meet.  All of them derive from
    Python's [Exception], so every [except Exception] clause of the
    script catches each of them. *)
Inductive exn : Type :=
| KeyError (key : string)
| KeyErrorInt (key : Z)
| IndexError (msg : string)
| TypeError (msg : string)
| AttributeError (msg : string)
| NameError (name : string)
| ValueError (msg : string)
| ExternalError (msg : string).

(** The text of [f"{e}"]. *)
Definition exn_str (e : exn) : string :=
  match e with
  | KeyError k => "'" ++ k ++ "'"
  | KeyErrorInt k => str_Z k
  | IndexError m => m
  | TypeError m => m
  | AttributeError m => m
  | NameError n => "name '" ++ n ++ "' is not defined"
  | ValueError m => m
  | ExternalError m => m
  end.

(** A computation that returns an [A] or raises. *)
Definition result (A : Type) : Type := (exn + A)%type.

Definition ret {A} (a : A) : result A := inr a.
Definition raise {A} (e : exn) : result A := inl e.
Definition bind {A B} (c : result A) (k : A -> result B) : result B :=
  match c with
  | inl e => inl e
  | inr a => k a
  end.

Declare Scope py_scope.
Delimit Scope py_scope with py.
Notation "x <- c ;; k" := (bind c (fun x => k))
  (at level 61, c at next level, right associativity) : py_scope.

(** ** Python values of the service response *)

(** The response of [gmaps.distance_matrix] is decoded JSON: nested
    dicts with string keys, lists, strings, integers and [None].  A dict
    keeps its items in insertion order; lookup takes the first item with
    the key. *)
Inductive pyval : Type :=
| PNone
| PStr (s : string)
| PInt (z : Z)
| PList (items : list pyval)
| PDict (items : list (string * pyval)).

Fixpoint dict_lookup (k : string) (d : list (string * pyval)) : option pyval :=
  match d with
  | [] => None
  | (k', v) :: d' => if String.eqb k k' then Some v else dict_lookup k d'
  end.

(** [k in d] for a dict [d]. *)
Definition dict_has (k : string) (d : list (string * pyval)) : bool :=
  match dict_lookup k d with
  | Some _ => true
  | None => false
  end.

(** [v[k]] for a string key [k]. *)
Definition getitem_str (v : pyval) (k : string) : result pyval :=
  match v with
  | PDict d =>
      match dict_lookup k d with
      | Some x => ret x
      | None => raise (KeyError k)
      end
  | PList _ => raise (TypeError "list indices must be integers or slices, not str")
  | PStr _ => raise (TypeError "string indices must be integers, not 'str'")
  | PInt _ => raise (TypeError "'int' object is not subscriptable")
  | PNone => raise (TypeError "'NoneType' object is not subscriptable")
  end.

(** [v[0]]; the keys of a decoded JSON dict are strings, so 0 is not
    among them. *)
Definition getitem_0 (v : pyval) : result pyval :=
  match v with
  | PList (x :: _) => ret x
  | PList [] => raise (IndexError "list index out of range")
  | PStr (String c _) => ret (PStr (String c EmptyString))
  | PStr EmptyString => raise (IndexError "string index out of range")
  | PDict _ => raise (KeyErrorInt 0)
  | PInt _ => raise (TypeError "'int' object is not subscriptable")
  | PNone => raise (TypeError "'NoneType' object is not subscriptable")
  end.

(** [v.get(k)]: only a dict has the method; a missing key gives [None]. *)
Definition get_method (v : pyval) (k : string) : result pyval :=
  match v with
  | PDict d =>
      match dict_lookup k d with
      | Some x => ret x
      | None => ret PNone
      end
  | PList _ => raise (AttributeError "'list' object has no attribute 'get'")
  | PStr _ => raise (AttributeError "'str' object has no attribute 'get'")
  | PInt _ => raise (AttributeError "'int' object has no attribute 'get'")
  | PNone => raise (AttributeError "'NoneType' object has no attribute 'get'")
  end.

(** [v != 'OK']. *)
Definition ne_OK (v : pyval) : bool :=
  match v with
  | PStr s => negb (String.eqb s "OK")
  | _ => true
  end.

(** ** Dates and times *)

Record date : Type := mkDate { year : Z; month : Z; day : Z }.
Record time : Type := mkTime { hour : Z; minute : Z; second : Z; microsecond : Z }.
Record datetime : Type := mkDatetime { dt_date : date; dt_time : time }.

(** [datetime.combine(d, t)]. *)
Definition combine (d : date) (t : time) : datetime := mkDatetime d t.

(** What [pd.to_datetime] returns for a scalar: a timestamp, or [NaT]
    for a missing value. *)
Inductive Timestamp : Type :=
| NaT
| TS (d : date) (t : time).

(** The [.time()] method; [NaT] refuses it. *)
Definition time_method (ts : Timestamp) : result time :=
  match ts with
  | TS _ t => ret t
  | NaT => raise (ValueError "NaTType does not support time")
  end.

(** ** Strings *)

(** A Python [str] is held as its UTF-8 bytes.  White space, for
    [str.strip], is every character for which [str.isspace] holds:
    U+0009-000D, U+001C-0020, U+0085, U+00A0, U+1680, U+2000-200A,
    U+2028, U+2029, U+202F, U+205F and U+3000.  [is_space] is the test
    for those of one byte, [is_space2] and [is_space3] for those of two
    and of three bytes. *)
Definition is_space (c : ascii) : bool :=
  let n := nat_of_ascii c in
  ((9 <=? n) && (n <=? 13) || (28 <=? n) && (n <=? 32))%nat%bool.

Definition is_space2 (c1 c2 : ascii) : bool :=
  let n1 := nat_of_ascii c1 in
  let n2 := nat_of_ascii c2 in
  ((n1 =? 194) && ((n2 =? 133) || (n2 =? 160)))%nat%bool.

Definition is_space3 (c1 c2 c3 : ascii) : bool :=
  let n1 := nat_of_ascii c1 in
  let n2 := nat_of_ascii c2 in
  let n3 := nat_of_ascii c3 in
  ((n1 =? 225) && (n2 =? 154) && (n3 =? 128)
   || (n1 =? 226) && (n2 =? 128)
      && ((128 <=? n3) && (n3 <=? 138) || (n3 =? 168) || (n3 =? 169) || (n3 =? 175))
   || (n1 =? 226) && (n2 =? 129) && (n3 =? 159)
   || (n1 =? 227) && (n2 =? 128) && (n3 =? 128))%nat%bool.

(** Removes the white space a text begins with; [p2] and [p3] tell the
    characters of two and three bytes from the bytes in the order they
    are met. *)
Fixpoint lstrip_with (p2 : ascii -> ascii -> bool)
  (p3 : ascii -> ascii -> ascii -> bool) (s : string) : string :=
  match s with
  | EmptyString => EmptyString
  | String c1 s1 =>
      if is_space c1 then lstrip_with p2 p3 s1
      else
        match s1 with
        | EmptyString => s
        | String c2 s2 =>
            if p2 c1 c2 then lstrip_with p2 p3 s2
            else
              match s2 with
              | EmptyString => s
              | String c3 s3 => if p3 c1 c2 c3 then lstrip_with p2 p3 s3 else s
              end
        end
  end.

Fixpoint string_rev (s : string) : string :=
  match s with
  | EmptyString => EmptyString
  | String c s' => string_rev s' ++ String c EmptyString
  end.

Definition lstrip (s : string) : string := lstrip_with is_space2 is_space3 s.

(** From the end the bytes of a character are met last byte first. *)
Definition rstrip (s : string) : string :=
  string_rev
    (lstrip_with (fun c1 c2 => is_space2 c2 c1)
       (fun c1 c2 c3 => is_space3 c3 c2 c1) (string_rev s)).

(** [s.strip()]. *)
Definition strip (s : string) : string := rstrip (lstrip s).

(** [sep.join(l)]. *)
Fixpoint join (sep : string) (l : list string) : string :=
  match l with
  | [] => ""
  | [x] => x
  | x :: l' => x ++ sep ++ join sep l'
  end.

(** [k in s] for strings: [k] occurs in [s]. *)
Fixpoint is_substring (k s : string) : bool :=
  if String.prefix k s then true
  else match s with
       | String _ s' => is_substring k s'
       | EmptyString => false
       end.

(** [k in v] for a string [k]: a key of a dict, an item of a list, a
    substring of a string; the other values are not iterable. *)
Definition contains (k : string) (v : pyval) : result bool :=
  match v with
  | PDict d => ret (dict_has k d)
  | PList l =>
      ret (existsb (fun x => match x with PStr s => String.eqb k s | _ => false end) l)
  | PStr s => ret (is_substring k s)
  | PInt _ => raise (TypeError "argument of type 'int' is not iterable")
  | PNone => raise (TypeError "argument of type 'NoneType' is not iterable")
  end.

(** ** The table *)

(** A cell of the DataFrame that [pd.read_csv] builds.  A float is kept
    as the text [str] gives for it: the script only formats it. *)
Inductive cell : Type :=
| CellInt (z : Z)
| CellFloat (repr : string)
| CellStr (s : string)
| CellNaN.

(** [f"{c}"]. *)
Definition cell_str (c : cell) : string :=
  match c with
  | CellInt z => str_Z z
  | CellFloat r => r
  | CellStr s => s
  | CellNaN => "nan"
  end.

(** [columns] is the header; each entry of [data] is one row of cells. *)
Record DataFrame : Type := mkDataFrame {
  columns : list string;
  data : list (list cell)
}.

(** A row as [df.iterrows()] hands it out: the header and the cells. *)
Record Series : Type := mkSeries {
  index : list string;
  values : list cell
}.

Fixpoint position (col : string) (cols : list string) : option nat :=
  match cols with
  | [] => None
  | c :: cols' =>
      if String.eqb col c then Some 0
      else match position col cols' with
           | Some n => Some (S n)
           | None => None
           end
  end.

(** [row[col]]; [read_csv] pads a short line with NaN. *)
Definition series_getitem (row : Series) (col : string) : result cell :=
  match position col (index row) with
  | Some n => ret (nth n (values row) CellNaN)
  | None => raise (KeyError col)
  end.

(** [col in df.columns]. *)
Definition in_columns (col : string) (df : DataFrame) : bool :=
  existsb (String.eqb col) (columns df).

(** [df.iterrows()]: [read_csv] numbers the rows from 0. *)
Definition iterrows (df : DataFrame) : list (nat * Series) :=
  List.combine (seq 0 (length (data df))) (map (mkSeries (columns df)) (data df)).

(** ** Records and page output *)

(** The dict appended to [results]. *)
Record TravelResult : Type := mkTravelResult {
  Origin : string;
  Destination : string;
  Departure_Time : datetime;
  Distance_text : pyval;
  Distance_meters : pyval;
  Duration_text : pyval;
  Duration_seconds : pyval
}.

(** What a run shows on the page, and the queries it sends, in order. *)
Inductive event : Type :=
| st_error (msg : string)
| st_warning (msg : string)
| st_info (msg : string)
| st_write (title : string) (table : list TravelResult)
| st_download_button (label data file_name mime : string)
| call_distance_matrix (origins destinations mode : string) (departure_time : datetime).

Definition is_query (ev : event) : bool :=
  match ev with
  | call_distance_matrix _ _ _ _ => true
  | _ => false
  end.

(** The messages of the script. *)
Definition msg_client (e : exn) : string :=
  "Error creating Google Maps client: " ++ exn_str e.
Definition msg_read_csv (e : exn) : string :=
  "Error reading CSV file: " ++ exn_str e.
Definition msg_parse (idx : nat) (e : exn) : string :=
  "Error parsing 'endTime' for row " ++ str_nat idx ++ ": " ++ exn_str e.
Definition msg_fetch (idx : nat) (e : exn) : string :=
  "Error fetching data from Google API for row " ++ str_nat idx ++ ": " ++ exn_str e.
Definition msg_not_ok (idx : nat) : string :=
  "Row " ++ str_nat idx ++ ": API response status not OK. Skipping.".
Definition msg_process (idx : nat) (e : exn) : string :=
  "Error processing API response for row " ++ str_nat idx ++ ": " ++ exn_str e.

Definition required_cols : list string :=
  ["OriginLat"; "OriginLon"; "DestLat"; "DestLon"; "endTime"].

Definition msg_columns : string :=
  "CSV file must contain columns: " ++ join ", " required_cols.

(** ** External collaborators *)

Local Open Scope list_scope.

(** A [googlemaps.Client]. *)
Record Client : Type := mkClient { key : string }.

(** The library calls of the script.  [W] is the state of the outside
    world: the clock reads it, a round trip to the service changes it. *)
Record Env (W : Type) : Type := mkEnv {
  (** [googlemaps.Client(key=api_key)] *)
  new_client : string -> result Client;
  (** [pd.read_csv(uploaded_file)] *)
  read_csv : string -> result DataFrame;
  (** [pd.to_datetime(x)] *)
  to_datetime : cell -> result Timestamp;
  (** [date.today()] *)
  date_today : W -> date;
  (** [client.distance_matrix(origins, destinations, mode, departure_time)] *)
  distance_matrix :
    Client -> string -> string -> string -> datetime -> W -> result pyval * W;
  (** [pd.DataFrame(results).to_csv(index=False)] *)
  to_csv : list TravelResult -> string
}.

Arguments new_client {W}.
Arguments read_csv {W}.
Arguments to_datetime {W}.
Arguments date_today {W}.
Arguments distance_matrix {W}.
Arguments to_csv {W}.

(** ** The script *)

(** How the [try] body of lines 79-104 ends when nothing is raised:
    with the warning and [continue], or with [results.append]. *)
Inductive extracted : Type :=
| NotOK
| Appended (r : TravelResult).

(** The state of the [for] loop: the page so far, [results], the world. *)
Record loop_state (W : Type) : Type := mkLoop {
  trace : list event;
  results : list TravelResult;
  world : W
}.

Arguments mkLoop {W}.
Arguments trace {W}.
Arguments results {W}.
Arguments world {W}.

(** A run of the page: what it showed and sent, the exception that
    ended it if one escaped every handler, and the world it left. *)
Record run (W : Type) : Type := mkRun {
  page : list event;
  uncaught : option exn;
  final : W
}.

Arguments mkRun {W}.
Arguments page {W}.
Arguments uncaught {W}.
Arguments final {W}.

Section Script.

Context {W : Type} (env : Env W).

Local Open Scope py_scope.

Section Row.

(** The widget value [mode], and [gmaps]: [None] while the name is
    unbound, which is the case when the client could not be built. *)
Variable mode : string.
Variable gmaps : option Client.

(** Lines 53-54: [f"{row[lat]},{row[lon]}"]. *)
Definition lat_lon (row : Series) (lat lon : string) : result string :=
  a <- series_getitem row lat ;;
  b <- series_getitem row lon ;;
  ret (cell_str a ++ "," ++ cell_str b)%string.

(** Lines 59-61, the body of the first [try]. *)
Definition departure_datetime (row : Series) (w : W) : result datetime :=
  x <- series_getitem row "endTime" ;;
  ts <- to_datetime env x ;;
  end_time <- time_method ts ;;
  ret (combine (date_today env w) end_time).

(** Lines 68-73, the body of the second [try]: the value or exception,
    the world after it, and the query if one was sent. *)
Definition fetch (origin destination : string) (departure : datetime) (w : W)
  : result pyval * W * list event :=
  match gmaps with
  | None => (raise (NameError "gmaps"), w, [])
  | Some client =>
      let (r, w') := distance_matrix env client origin destination mode departure w in
      (r, w', [call_distance_matrix origin destination mode departure])
  end.

(** Line 80: [response['rows'][0]['elements'][0]]. *)
Definition first_element (response : pyval) : result pyval :=
  rows <- getitem_str response "rows" ;;
  row0 <- getitem_0 rows ;;
  elements <- getitem_str row0 "elements" ;;
  getitem_0 elements.

(** Lines 85-86: both conditional expressions test ['distance' in
    element] on their own. *)
Definition distance_fields (element : pyval) : result (pyval * pyval) :=
  has_distance <- contains "distance" element ;;
  distance_text <-
    (if has_distance : bool
     then (d <- getitem_str element "distance" ;; getitem_str d "text")
     else ret (PStr "N/A")) ;;
  has_distance' <- contains "distance" element ;;
  distance_value <-
    (if has_distance' : bool
     then (d <- getitem_str element "distance" ;; getitem_str d "value")
     else ret PNone) ;;
  ret (distance_text, distance_value).

(** Lines 89-94. *)
Definition duration_fields (element : pyval) : result (pyval * pyval) :=
  has_traffic <- contains "duration_in_traffic" element ;;
  if String.eqb mode "driving" && has_traffic
  then
    d <- getitem_str element "duration_in_traffic" ;;
    duration_text <- getitem_str d "text" ;;
    d' <- getitem_str element "duration_in_traffic" ;;
    duration_value <- getitem_str d' "value" ;;
    ret (duration_text, duration_value)
  else
    d <- getitem_str element "duration" ;;
    duration_text <- getitem_str d "text" ;;
    d' <- getitem_str element "duration" ;;
    duration_value <- getitem_str d' "value" ;;
    ret (duration_text, duration_value).

(** Lines 80-104, the body of the third [try]. *)
Definition extract (origin destination : string) (departure : datetime)
  (response : pyval) : result extracted :=
  element <- first_element response ;;
  status <- get_method element "status" ;;
  if ne_OK status then ret NotOK
  else
    distance <- distance_fields element ;;
    duration <- duration_fields element ;;
    ret (Appended
           (mkTravelResult origin destination departure
              (fst distance) (snd distance) (fst duration) (snd duration))).

(** Lines 57-106: the three [try] blocks of one iteration.  Gives what
    the iteration adds to the page, the record it appends if any, and
    the world after it. *)
Definition row_body (idx : nat) (row : Series) (origin destination : string) (w : W)
  : list event * option TravelResult * W :=
  match departure_datetime row w with
  | inl e => ([st_error (msg_parse idx e)], None, w)
  | inr departure =>
      let '(r, w', sent) := fetch origin destination departure w in
      match r with
      | inl e => (sent ++ [st_error (msg_fetch idx e)], None, w')
      | inr response =>
          match extract origin destination departure response with
          | inl e => (sent ++ [st_error (msg_process idx e)], None, w')
          | inr NotOK => (sent ++ [st_warning (msg_not_ok idx)], None, w')
          | inr (Appended rec) => (sent, Some rec, w')
          end
      end
  end.

(** [results.append(r)] when the iteration reached it. *)
Definition append_result (rs : list TravelResult) (r : option TravelResult)
  : list TravelResult :=
  match r with
  | Some x => rs ++ [x]
  | None => rs
  end.

(** One iteration, lines 52-106.  Lines 53-54 stand outside every
    [try]: what they raise ends the run. *)
Definition iteration (st : loop_state W) (idx : nat) (row : Series)
  : result (loop_state W) :=
  origin <- lat_lon row "OriginLat" "OriginLon" ;;
  destination <- lat_lon row "DestLat" "DestLon" ;;
  let '(evs, r, w') := row_body idx row origin destination (world st) in
  ret (mkLoop (trace st ++ evs) (append_result (results st) r) w').

(** The [for] loop of line 51 over the rows still to come. *)
Fixpoint for_rows (rows : list (nat * Series)) (st : loop_state W)
  : loop_state W * option exn :=
  match rows with
  | [] => (st, None)
  | (idx, row) :: rows' =>
      match iteration st idx row with
      | inl e => (st, Some e)
      | inr st' => for_rows rows' st'
      end
  end.

End Row.

(** Line 45: [all(col in df.columns for col in required_cols)]. *)
Definition validate_columns (df : DataFrame) : bool :=
  forallb (fun col => in_columns col df) required_cols.

(** Lines 108-122. *)
Definition display (rs : list TravelResult) : list event :=
  match rs with
  | [] => [st_info "No valid results to display."]
  | _ :: _ =>
      [st_write "### Travel Time & Distance Results" rs;
       st_download_button "Download results as CSV" (to_csv env rs)
         "distance_matrix.csv" "text/csv"]
  end.

(** Lines 32-35: the page after them and the binding of [gmaps]. *)
Definition create_client (api_key : string) : list event * option Client :=
  match new_client env api_key with
  | inr c => ([], Some c)
  | inl e => ([st_error (msg_client e)], None)
  end.

(** Lines 37-41: the page after them and the binding of [df]. *)
Definition load_csv (file : string) : list event * option DataFrame :=
  match read_csv env file with
  | inr df => ([], Some df)
  | inl e => ([st_error (msg_read_csv e)], None)
  end.

(** Lines 43-122, with [gmaps] and [df] bound or not. *)
Definition calculate (mode : string) (gmaps : option Client)
  (df : option DataFrame) (shown : list event) (w : W) : run W :=
  match df with
  | None => mkRun shown (Some (NameError "df")) w
  | Some df =>
      if negb (validate_columns df)
      then mkRun (shown ++ [st_error msg_columns]) None w
      else
        match for_rows mode gmaps (iterrows df) (mkLoop shown [] w) with
        | (st, Some e) => mkRun (trace st) (Some e) (world st)
        | (st, None) => mkRun (trace st ++ display (results st)) None (world st)
        end
  end.

(** Lines 25-122: one run of the page with the widget values
    [button], [uploaded_file], [mode] and [api_key]. *)
Definition main (button : bool) (uploaded_file : option string)
  (mode api_key : string) (w : W) : run W :=
  if negb button then mkRun [] None w
  else
    match uploaded_file with
    | None => mkRun [st_error "Please upload a CSV file."] None w
    | Some file =>
        if String.eqb (strip api_key) ""
        then mkRun [st_error "Please provide a valid Google API key."] None w
        else
          let (shown1, gmaps) := create_client api_key in
          let (shown2, df) := load_csv file in
          calculate mode gmaps df (shown1 ++ shown2) w
    end.

(** [results] when the loop of a run ends, for a table that passed the
    column check. *)
Definition results_of (mode : string) (gmaps : option Client) (df : DataFrame)
  (w : W) : list TravelResult :=
  results (fst (for_rows mode gmaps (iterrows df) (mkLoop [] [] w))).

End Script.

(** ** Notions used by the statements *)

(** The item [k] of a dict is itself a dict-like value whose ['text']
    is [t] and whose ['value'] is [v]. *)
Definition has_fields (items : list (string * pyval)) (k : string) (t v : pyval)
  : Prop :=
  exists f, dict_lookup k items = Some f /\
            getitem_str f "text" = inr t /\
            getitem_str f "value" = inr v.

(** The field the duration comes from, in the words of the rule: the
    traffic one when the mode is driving and the element has it, the
    plain one in every other case. *)
Definition duration_source (mode : string) (items : list (string * pyval))
  : string :=
  if String.eqb mode "driving" && dict_has "duration_in_traffic" items
  then "duration_in_traffic"
  else "duration".

(** The records among the outcomes of the rows, in their order. *)
Fixpoint survivors (outcomes : list (option TravelResult)) : list TravelResult :=
  match outcomes with
  | [] => []
  | Some r :: outcomes' => r :: survivors outcomes'
  | None :: outcomes' => survivors outcomes'
  end.

(** A response from which line 80 cannot take a first element: no
    ['rows'] key, an empty ['rows'] list, or an empty ['elements'] list
    in its first entry; with the exception the lookup then raises. *)
Inductive lacks_element : pyval -> exn -> Prop :=
| rows_missing items :
    dict_lookup "rows" items = None ->
    lacks_element (PDict items) (KeyError "rows")
| rows_empty items :
    dict_lookup "rows" items = Some (PList []) ->
    lacks_element (PDict items) (IndexError "list index out of range")
| elements_empty items entry more :
    dict_lookup "rows" items = Some (PList (entry :: more)) ->
    getitem_str entry "elements" = inr (PList []) ->
    lacks_element (PDict items) (IndexError "list index out of range").

(** The text of a message on the page. *)
Definition event_text (ev : event) : string :=
  match ev with
  | st_error msg | st_warning msg | st_info msg => msg
  | _ => ""
  end.

(** The message names the row. *)
Definition mentions_row (idx : nat) (ev : event) : Prop :=
  is_substring (str_nat idx) (event_text ev) = true.

(** The five required names are in the header of the row. *)
Definition has_required (row : Series) : Prop :=
  forallb (fun col => existsb (String.eqb col) (index row)) required_cols = true.

Section Stages.

Context {W : Type} (env : Env W).
Variables (mode : string) (gmaps : option Client).
Variables (idx : nat) (row : Series) (origin destination : string) (w : W).

(** The four ways a row fails: at which stage, with which message on
    the page, after which queries, leaving which world. *)
Inductive row_fails : event -> list event -> W -> Prop :=
| time_parse_failure e :
    departure_datetime env row w = inl e ->
    row_fails (st_error (msg_parse idx e)) [] w
| query_failure departure e w' sent :
    departure_datetime env row w = inr departure ->
    fetch env mode gmaps origin destination departure w = (inl e, w', sent) ->
    row_fails (st_error (msg_fetch idx e)) sent w'
| status_not_ok departure response w' sent element status :
    departure_datetime env row w = inr departure ->
    fetch env mode gmaps origin destination departure w = (inr response, w', sent) ->
    first_element response = inr element ->
    get_method element "status" = inr status ->
    ne_OK status = true ->
    row_fails (st_warning (msg_not_ok idx)) sent w'
| extraction_failure departure response e w' sent :
    departure_datetime env row w = inr departure ->
    fetch env mode gmaps origin destination departure w = (inr response, w', sent) ->
    extract mode origin destination departure response = inl e ->
    row_fails (st_error (msg_process idx e)) sent w'.

(** The row goes through the three stages and yields [rec]. *)
Definition row_survives (rec : TravelResult) (sent : list event) (w' : W) : Prop :=
  exists departure response,
    departure_datetime env row w = inr departure /\
    fetch env mode gmaps origin destination departure w = (inr response, w', sent) /\
    extract mode origin destination departure response = inr (Appended rec).

End Stages.

Section Outcomes.

Context {W : Type} (env : Env W).
Variables (mode : string) (gmaps : option Client).

(** What each row in turn contributes, the world being handed from one
    row to the next. *)
Fixpoint row_outcomes (rows : list (nat * Series)) (w : W)
  : list (option TravelResult) :=
  match rows with
  | [] => []
  | (idx, row) :: rows' =>
      match lat_lon row "OriginLat" "OriginLon", lat_lon row "DestLat" "DestLon" with
      | inr origin, inr destination =>
          let '(_, r, w') := row_body env mode gmaps idx row origin destination w in
          r :: row_outcomes rows' w'
      | _, _ => []
      end
  end.

(** What a row puts on the page while [gmaps] is unbound: the error of
    the time parse, or else the error of the query. *)
Definition row_error_without_client (w : W) (r : nat * Series) : event :=
  match departure_datetime env (snd r) w with
  | inl e => st_error (msg_parse (fst r) e)
  | inr _ => st_error (msg_fetch (fst r) (NameError "gmaps"))
  end.

End Outcomes.

(** ** A concrete environment

    A stand-in for the libraries on the few values the examples below
    use.  The world is the number of round trips made so far; midnight
    falls during the first one. *)
Module Demo.

Definition new_client (api_key : string) : result Client :=
  if String.prefix "AIza" api_key then ret (mkClient api_key)
  else raise (ValueError "Invalid API key provided.").

Definition to_datetime (x : cell) : result Timestamp :=
  match x with
  | CellStr "2023-01-01 14:30:00" => ret (TS (mkDate 2023 1 1) (mkTime 14 30 0 0))
  | CellStr "2022-12-31 23:45:10" => ret (TS (mkDate 2022 12 31) (mkTime 23 45 10 0))
  | CellNaN => ret NaT
  | _ => raise (ValueError "Unknown datetime string format, unable to parse")
  end.

Definition date_today (w : nat) : date :=
  match w with
  | O => mkDate 2024 6 10
  | S _ => mkDate 2024 6 11
  end.

(** Only the header line: no example reads the file. *)
Definition to_csv (rs : list TravelResult) : string :=
  "Origin,Destination,Departure_Time,Distance (text),Distance (meters),Duration (text),Duration (seconds)".

(** [table] is what [read_csv] answers, [service] what the service
    answers for a given origin. *)
Definition env (table : result DataFrame) (service : string -> result pyval)
  : Env nat :=
  mkEnv nat new_client (fun _ => table) to_datetime date_today
    (fun _ origins _ _ _ w => (service origins, S w)) to_csv.

Definition fields (text : string) (value : Z) : pyval :=
  PDict [("text", PStr text); ("value", PInt value)].

(** An element with both durations, 600 s and 750 s in traffic. *)
Definition element_traffic : pyval :=
  PDict [("distance", fields "5.2 km" 5200);
         ("duration", fields "10 mins" 600);
         ("duration_in_traffic", fields "13 mins" 750);
         ("status", PStr "OK")].


Definition element_no_status : pyval :=
  PDict [("distance", fields "5.2 km" 5200); ("duration", fields "10 mins" 600)].

Definition element_not_found : pyval :=
  PDict [("status", PStr "NOT_FOUND")].

Definition response_of (elements : list pyval) : pyval :=
  PDict [("destination_addresses", PList [PStr "B"]);
         ("origin_addresses", PList [PStr "A"]);
         ("rows", PList [PDict [("elements", PList elements)]]);
         ("status", PStr "OK")].

Definition response_no_rows : pyval :=
  PDict [("error_message", PStr "The provided API key is invalid.");
         ("status", PStr "REQUEST_DENIED")].

Definition response_empty_rows : pyval :=
  PDict [("rows", PList []); ("status", PStr "INVALID_REQUEST")].

Definition header : list string :=
  ["OriginLat"; "OriginLon"; "DestLat"; "DestLon"; "endTime"; "note"].

Definition line (lat : string) (endTime : cell) : list cell :=
  [CellFloat lat; CellFloat "13.4"; CellFloat "48.1"; CellFloat "11.6"; endTime;
   CellStr "x"].

(** Three rows; the second has no readable [endTime]. *)
Definition table : DataFrame :=
  mkDataFrame header
    [line "52.5" (CellStr "2023-01-01 14:30:00");
     line "52.6" (CellStr "half past two");
     line "52.7" (CellStr "2022-12-31 23:45:10")].

Definition service (origins : string) : result pyval :=
  ret (response_of [element_traffic]).

Definition row0 : Series := mkSeries header (line "52.5" (CellStr "2023-01-01 14:30:00")).

End Demo.

(** ** Further notions *)

(** The text is made of white-space characters only, read with the
    tests [p2] and [p3] for those of two and three bytes. *)
Fixpoint all_space_with (p2 : ascii -> ascii -> bool)
  (p3 : ascii -> ascii -> ascii -> bool) (s : string) : bool :=
  match s with
  | EmptyString => true
  | String c1 s1 =>
      if is_space c1 then all_space_with p2 p3 s1
      else
        match s1 with
        | EmptyString => false
        | String c2 s2 =>
            if p2 c1 c2 then all_space_with p2 p3 s2
            else
              match s2 with
              | EmptyString => false
              | String c3 s3 => p3 c1 c2 c3 && all_space_with p2 p3 s3
              end
        end
  end.

(** Every character of the text is white space. *)
Definition all_space (s : string) : bool :=
  all_space_with is_space2 is_space3 s.

(** A no-break space, U+00A0, and an ideographic space, U+3000. *)
Definition nbsp : string :=
  String (ascii_of_nat 194) (String (ascii_of_nat 160) EmptyString).
Definition ideographic_space : string :=
  String (ascii_of_nat 227)
    (String (ascii_of_nat 128) (String (ascii_of_nat 128) EmptyString)).

(** The required names the table does not have. *)
Definition missing_columns (df : DataFrame) : list string :=
  filter (fun col => negb (in_columns col df)) required_cols.

(** The event is a report about a row: an error or a warning. *)
Definition is_report (ev : event) : bool :=
  match ev with
  | st_error _ | st_warning _ => true
  | _ => false
  end.

Definition is_download (ev : event) : bool :=
  match ev with
  | st_download_button _ _ _ _ => true
  | _ => false
  end.

Definition is_info (ev : event) : bool :=
  match ev with
  | st_info _ => true
  | _ => false
  end.

(** The part of a text in front of its first colon. *)
Fixpoint before_colon (s : string) : string :=
  match s with
  | EmptyString => EmptyString
  | String c s' => if Ascii.eqb c ":" then EmptyString else String c (before_colon s')
  end.

(** The time of day read from the [endTime] cell of a row, line 59. *)
Definition end_time {W} (env : Env W) (row : Series) : result time :=
  bind (series_getitem row "endTime") (fun x =>
  bind (to_datetime env x) (fun ts => time_method ts)).

Definition endTime_parses {W} (env : Env W) (row : Series) : bool :=
  match end_time env row with
  | inr _ => true
  | inl _ => false
  end.

(** The response cut down to the first element of its first row. *)
Definition only_element (element : pyval) : pyval :=
  PDict [("rows", PList [PDict [("elements", PList [element])]])].

(** ** Facts about one iteration *)

Section RowFacts.

Context {W : Type} (env : Env W).
Variables (mode : string) (gmaps : option Client).

(** Once the departure time is there and the service has answered, the
    iteration ends as the extraction does. *)
Lemma row_body_fetched idx row origin destination w departure response w' sent :
  departure_datetime env row w = inr departure ->
  fetch env mode gmaps origin destination departure w = (inr response, w', sent) ->
  row_body env mode gmaps idx row origin destination w =
  match extract mode origin destination departure response with
  | inl e => (sent ++ [st_error (msg_process idx e)], None, w')
  | inr NotOK => (sent ++ [st_warning (msg_not_ok idx)], None, w')
  | inr (Appended rec) => (sent, Some rec, w')
  end.
Proof.
  intros Hd Hf. unfold row_body. rewrite Hd, Hf. reflexivity.
Qed.

(** Past the status check the extraction is the two field selections. *)
Lemma extract_ok origin destination departure response items :
  first_element response = inr (PDict items) ->
  dict_lookup "status" items = Some (PStr "OK") ->
  extract mode origin destination departure response =
  bind (distance_fields (PDict items)) (fun distance =>
  bind (duration_fields mode (PDict items)) (fun duration =>
  ret (Appended (mkTravelResult origin destination departure
                   (fst distance) (snd distance) (fst duration) (snd duration))))).
Proof.
  intros He Hs. unfold extract. rewrite He. cbn [bind get_method].
  rewrite Hs. reflexivity.
Qed.

(** The duration is read from [duration_source]. *)
Lemma duration_fields_source items t v :
  has_fields items (duration_source mode items) t v ->
  duration_fields mode (PDict items) = inr (t, v).
Proof.
  intros (f & Hf & Ht & Hv). unfold duration_fields, duration_source in *.
  cbn [contains bind ret].
  destruct (String.eqb mode "driving" && dict_has "duration_in_traffic" items);
    cbn [getitem_str]; rewrite Hf; cbn [bind ret]; rewrite Ht, Hv; reflexivity.
Qed.

(** An iteration whose two coordinate strings can be formed moves the
    loop on to the next row. *)
Lemma for_rows_step idx row rows st origin destination :
  lat_lon row "OriginLat" "OriginLon" = inr origin ->
  lat_lon row "DestLat" "DestLon" = inr destination ->
  for_rows env mode gmaps ((idx, row) :: rows) st =
  let '(evs, r, w') := row_body env mode gmaps idx row origin destination (world st) in
  for_rows env mode gmaps rows
    (mkLoop (trace st ++ evs) (append_result (results st) r) w').
Proof.
  intros Ho Hd. cbn [for_rows]. unfold iteration. rewrite Ho, Hd. cbn [bind].
  destruct (row_body env mode gmaps idx row origin destination (world st))
    as [[evs r] w']. reflexivity.
Qed.

(** A row that appends nothing leaves [results] as it was. *)
Lemma for_rows_skip idx row rows st origin destination evs w' :
  lat_lon row "OriginLat" "OriginLon" = inr origin ->
  lat_lon row "DestLat" "DestLon" = inr destination ->
  row_body env mode gmaps idx row origin destination (world st) = (evs, None, w') ->
  for_rows env mode gmaps ((idx, row) :: rows) st =
  for_rows env mode gmaps rows (mkLoop (trace st ++ evs) (results st) w').
Proof.
  intros Ho Hd Hb.
  rewrite (for_rows_step idx row rows st origin destination Ho Hd), Hb.
  reflexivity.
Qed.

(** The status check turns away every status that is not ['OK']. *)
Lemma extract_not_ok origin destination departure response element status :
  first_element response = inr element ->
  get_method element "status" = inr status ->
  ne_OK status = true ->
  extract mode origin destination departure response = inr NotOK.
Proof.
  intros He Hs Hne. unfold extract. rewrite He. cbn [bind].
  rewrite Hs. cbn [bind]. rewrite Hne. reflexivity.
Qed.

(** The record carries the strings and the departure time it was given. *)
Lemma extract_appended origin destination departure response rec :
  extract mode origin destination departure response = inr (Appended rec) ->
  Origin rec = origin /\ Destination rec = destination /\
  Departure_Time rec = departure.
Proof.
  unfold extract.
  destruct (first_element response) as [e|element]; cbn [bind]; [discriminate|].
  destruct (get_method element "status") as [e|status]; cbn [bind]; [discriminate|].
  destruct (ne_OK status); [discriminate|].
  destruct (distance_fields element) as [e|distance]; cbn [bind]; [discriminate|].
  destruct (duration_fields mode element) as [e|duration]; cbn [bind]; [discriminate|].
  intros H. injection H as <-. repeat split.
Qed.

(** The lookups of line 80 raise on a response without a first element. *)
Lemma first_element_lacking response e :
  lacks_element response e -> first_element response = inl e.
Proof.
  intros H. destruct H as [items H|items H|items entry more H Hel];
    unfold first_element; cbn [getitem_str]; rewrite H;
    cbn [bind ret raise getitem_0]; try reflexivity.
  rewrite Hel. reflexivity.
Qed.

End RowFacts.

(** ** The duration selection rule *)

(** C1.  For an element with status OK, the record's duration text and
    value are those of [duration_in_traffic] exactly when the mode is
    "driving" and the element has that field, and those of [duration]
    in every other case. *)
Theorem duration_selection mode origin destination departure response items
  dt dv t v :
  first_element response = inr (PDict items) ->
  dict_lookup "status" items = Some (PStr "OK") ->
  distance_fields (PDict items) = inr (dt, dv) ->
  has_fields items
    (if String.eqb mode "driving" && dict_has "duration_in_traffic" items
     then "duration_in_traffic" else "duration") t v ->
  extract mode origin destination departure response =
  inr (Appended (mkTravelResult origin destination departure dt dv t v)).
Proof.
  intros He Hs Hdist Hdur.
  rewrite (extract_ok mode origin destination departure response items He Hs).
  rewrite Hdist. cbn [bind].
  rewrite (duration_fields_source mode items t v Hdur). reflexivity.
Qed.

(** Driving with 600 s and 750 s in traffic gives 750; walking on the
    same element gives 600. *)
Lemma duration_selection_witness :
  let departure := mkDatetime (mkDate 2024 6 10) (mkTime 14 30 0 0) in
  let response := Demo.response_of [Demo.element_traffic] in
  extract "driving" "A" "B" departure response =
    inr (Appended (mkTravelResult "A" "B" departure (PStr "5.2 km") (PInt 5200)
                     (PStr "13 mins") (PInt 750))) /\
  extract "walking" "A" "B" departure response =
    inr (Appended (mkTravelResult "A" "B" departure (PStr "5.2 km") (PInt 5200)
                     (PStr "10 mins") (PInt 600))).
Proof.
  split.
  - eapply duration_selection; try reflexivity.
    exists (Demo.fields "13 mins" 750). repeat split; reflexivity.
  - eapply duration_selection; try reflexivity.
    exists (Demo.fields "10 mins" 600). repeat split; reflexivity.
Defined.

(** ** Elements without a distance, without a status, responses
       without an element *)



(** C9.  An element with no [status] key is handled as one whose status
    is not OK: the row is skipped with the warning, appends nothing, and
    the loop goes on with the next row. *)
Theorem missing_status_skipped {W} (env : Env W) mode gmaps idx row rows st
  origin destination departure response w' sent items :
  lat_lon row "OriginLat" "OriginLon" = inr origin ->
  lat_lon row "DestLat" "DestLon" = inr destination ->
  departure_datetime env row (world st) = inr departure ->
  fetch env mode gmaps origin destination departure (world st)
    = (inr response, w', sent) ->
  first_element response = inr (PDict items) ->
  dict_lookup "status" items = None ->
  extract mode origin destination departure response = inr NotOK /\
  (forall response' element' status',
      first_element response' = inr element' ->
      get_method element' "status" = inr status' ->
      ne_OK status' = true ->
      extract mode origin destination departure response' =
      extract mode origin destination departure response) /\
  row_body env mode gmaps idx row origin destination (world st) =
    (sent ++ [st_warning (msg_not_ok idx)], None, w') /\
  for_rows env mode gmaps ((idx, row) :: rows) st =
  for_rows env mode gmaps rows
    (mkLoop (trace st ++ sent ++ [st_warning (msg_not_ok idx)]) (results st) w').
Proof.
  intros Ho Hd Hdep Hfetch He Hnone.
  assert (Hx : extract mode origin destination departure response = inr NotOK).
  { apply (extract_not_ok mode origin destination departure response
             (PDict items) PNone He); [|reflexivity].
    cbn [get_method]. rewrite Hnone. reflexivity. }
  assert (Hb : row_body env mode gmaps idx row origin destination (world st) =
               (sent ++ [st_warning (msg_not_ok idx)], None, w')).
  { rewrite (row_body_fetched env mode gmaps idx row origin destination (world st)
               departure response w' sent Hdep Hfetch), Hx. reflexivity. }
  split; [exact Hx|]. split; [|split; [exact Hb|]].
  - intros response' element' status' He' Hs' Hne. rewrite Hx.
    exact (extract_not_ok mode origin destination departure response'
             element' status' He' Hs' Hne).
  - exact (for_rows_skip env mode gmaps idx row rows st origin destination _ w'
             Ho Hd Hb).
Qed.

Lemma missing_status_skipped_witness :
  let env := Demo.env (inr Demo.table)
               (fun _ => ret (Demo.response_of [Demo.element_no_status])) in
  let departure := mkDatetime (mkDate 2024 6 10) (mkTime 14 30 0 0) in
  row_body env "driving" (Some (mkClient "AIzaKey")) 0 Demo.row0
    "52.5,13.4" "48.1,11.6" 0 =
  ([call_distance_matrix "52.5,13.4" "48.1,11.6" "driving" departure;
    st_warning "Row 0: API response status not OK. Skipping."],
   None, 1).
Proof.
  cbv zeta.
  exact (proj1 (proj2 (proj2
    (missing_status_skipped
       (Demo.env (inr Demo.table)
          (fun _ => ret (Demo.response_of [Demo.element_no_status])))
       "driving" (Some (mkClient "AIzaKey")) 0 Demo.row0 [] (mkLoop [] [] 0)
       "52.5,13.4" "48.1,11.6" _ _ 1 _ _
       eq_refl eq_refl eq_refl eq_refl eq_refl eq_refl)))).
Defined.

(** C10.  When the response has no ['rows'] key, an empty ['rows'] list,
    or an empty ['elements'] list in its first entry, the lookup error
    is caught by the handler of the extraction: the row is skipped with
    a reported error and the loop goes on with the next row. *)
Theorem missing_element_caught {W} (env : Env W) mode gmaps idx row rows st
  origin destination departure response w' sent e :
  lat_lon row "OriginLat" "OriginLon" = inr origin ->
  lat_lon row "DestLat" "DestLon" = inr destination ->
  departure_datetime env row (world st) = inr departure ->
  fetch env mode gmaps origin destination departure (world st)
    = (inr response, w', sent) ->
  lacks_element response e ->
  extract mode origin destination departure response = inl e /\
  row_body env mode gmaps idx row origin destination (world st) =
    (sent ++ [st_error (msg_process idx e)], None, w') /\
  for_rows env mode gmaps ((idx, row) :: rows) st =
  for_rows env mode gmaps rows
    (mkLoop (trace st ++ sent ++ [st_error (msg_process idx e)]) (results st) w').
Proof.
  intros Ho Hd Hdep Hfetch Hlack.
  assert (Hx : extract mode origin destination departure response = inl e).
  { unfold extract. rewrite (first_element_lacking response e Hlack). reflexivity. }
  assert (Hb : row_body env mode gmaps idx row origin destination (world st) =
               (sent ++ [st_error (msg_process idx e)], None, w')).
  { rewrite (row_body_fetched env mode gmaps idx row origin destination (world st)
               departure response w' sent Hdep Hfetch), Hx. reflexivity. }
  split; [exact Hx|]. split; [exact Hb|].
  exact (for_rows_skip env mode gmaps idx row rows st origin destination _ w'
           Ho Hd Hb).
Qed.

Lemma missing_element_caught_witness :
  let client := Some (mkClient "AIzaKey") in
  let departure := mkDatetime (mkDate 2024 6 10) (mkTime 14 30 0 0) in
  let sent := [call_distance_matrix "52.5,13.4" "48.1,11.6" "driving" departure] in
  row_body (Demo.env (inr Demo.table) (fun _ => ret Demo.response_no_rows))
    "driving" client 0 Demo.row0 "52.5,13.4" "48.1,11.6" 0 =
  (sent ++ [st_error "Error processing API response for row 0: 'rows'"], None, 1) /\
  row_body (Demo.env (inr Demo.table) (fun _ => ret Demo.response_empty_rows))
    "driving" client 0 Demo.row0 "52.5,13.4" "48.1,11.6" 0 =
  (sent ++ [st_error "Error processing API response for row 0: list index out of range"],
   None, 1) /\
  row_body (Demo.env (inr Demo.table) (fun _ => ret (Demo.response_of [])))
    "driving" client 0 Demo.row0 "52.5,13.4" "48.1,11.6" 0 =
  (sent ++ [st_error "Error processing API response for row 0: list index out of range"],
   None, 1).
Proof.
  cbv zeta. split; [|split].
  - refine (proj1 (proj2
      (missing_element_caught
         (Demo.env (inr Demo.table) (fun _ => ret Demo.response_no_rows))
         "driving" (Some (mkClient "AIzaKey")) 0 Demo.row0 [] (mkLoop [] [] 0)
         "52.5,13.4" "48.1,11.6" _ Demo.response_no_rows 1 _ (KeyError "rows")
         eq_refl eq_refl eq_refl eq_refl _))).
    apply rows_missing. reflexivity.
  - refine (proj1 (proj2
      (missing_element_caught
         (Demo.env (inr Demo.table) (fun _ => ret Demo.response_empty_rows))
         "driving" (Some (mkClient "AIzaKey")) 0 Demo.row0 [] (mkLoop [] [] 0)
         "52.5,13.4" "48.1,11.6" _ Demo.response_empty_rows 1 _
         (IndexError "list index out of range")
         eq_refl eq_refl eq_refl eq_refl _))).
    apply rows_empty. reflexivity.
  - refine (proj1 (proj2
      (missing_element_caught
         (Demo.env (inr Demo.table) (fun _ => ret (Demo.response_of [])))
         "driving" (Some (mkClient "AIzaKey")) 0 Demo.row0 [] (mkLoop [] [] 0)
         "52.5,13.4" "48.1,11.6" _ (Demo.response_of []) 1 _
         (IndexError "list index out of range")
         eq_refl eq_refl eq_refl eq_refl _))).
    apply (elements_empty _ (PDict [("elements", PList [])]) []); reflexivity.
Defined.

(** ** Facts about the loop *)

Lemma append_result_app rs r more :
  append_result (rs ++ more) r = rs ++ append_result more r.
Proof.
  destruct r as [x|]; cbn [append_result]; [symmetry; apply app_assoc|reflexivity].
Qed.

Lemma position_found col cols :
  existsb (String.eqb col) cols = true -> exists n, position col cols = Some n.
Proof.
  induction cols as [|c cols IH]; cbn [existsb position]; [discriminate|].
  destruct (String.eqb col c); [intros _; exists 0; reflexivity|].
  cbn [orb]. intros H. destruct (IH H) as [n ->]. exists (S n). reflexivity.
Qed.

Lemma has_required_lat_lon row :
  has_required row ->
  exists origin destination,
    lat_lon row "OriginLat" "OriginLon" = inr origin /\
    lat_lon row "DestLat" "DestLon" = inr destination.
Proof.
  unfold has_required, required_cols. cbn [forallb].
  rewrite !andb_true_iff. intros (H1 & H2 & H3 & H4 & _).
  apply position_found in H1, H2, H3, H4.
  destruct H1 as [n1 H1], H2 as [n2 H2], H3 as [n3 H3], H4 as [n4 H4].
  unfold lat_lon, series_getitem. rewrite H1, H2, H3, H4. cbn [bind ret].
  eexists. eexists. split; reflexivity.
Qed.

Lemma iterrows_index df idx row :
  In (idx, row) (iterrows df) -> index row = columns df.
Proof.
  unfold iterrows. intros H. apply in_combine_r in H.
  apply in_map_iff in H. destruct H as (cells & <- & _). reflexivity.
Qed.

Lemma iterrows_required df idx row :
  validate_columns df = true -> In (idx, row) (iterrows df) -> has_required row.
Proof.
  intros Hv Hin. unfold has_required. rewrite (iterrows_index df idx row Hin).
  exact Hv.
Qed.

Lemma iterrows_length df : length (iterrows df) = length (data df).
Proof.
  unfold iterrows. rewrite length_combine, length_seq, length_map.
  apply Nat.min_id.
Qed.

Section LoopFacts.

Context {W : Type} (env : Env W).
Variables (mode : string) (gmaps : option Client).

(** The loop only ever appends to the page and to [results]: what was
    there when it started stays in front, untouched. *)
Lemma for_rows_acc rows : forall tr rs w,
  for_rows env mode gmaps rows (mkLoop tr rs w) =
  let (st, e) := for_rows env mode gmaps rows (mkLoop [] [] w) in
  (mkLoop (tr ++ trace st) (rs ++ results st) (world st), e).
Proof.
  induction rows as [|[idx row] rows IH]; intros tr rs w.
  - cbn. rewrite !app_nil_r. reflexivity.
  - cbn [for_rows]. unfold iteration. cbn [world trace results].
    destruct (lat_lon row "OriginLat" "OriginLon") as [e|origin]; cbn [bind].
    { cbn. rewrite !app_nil_r. reflexivity. }
    destruct (lat_lon row "DestLat" "DestLon") as [e|destination]; cbn [bind].
    { cbn. rewrite !app_nil_r. reflexivity. }
    destruct (row_body env mode gmaps idx row origin destination w)
      as [[evs r] w'].
    cbn [ret]. rewrite (IH (tr ++ evs)), (IH ([] ++ evs)).
    destruct (for_rows env mode gmaps rows (mkLoop [] [] w')) as [st e].
    cbn [trace results world app].
    rewrite <- !app_assoc.
    change (append_result [] r) with (append_result ([] ++ []) r).
    rewrite <- (app_nil_r rs) at 1.
    rewrite !append_result_app, <- !app_assoc. reflexivity.
Qed.

(** Rows that were gone through without an escaping exception can be
    taken off the front of the loop. *)
Lemma for_rows_app rows1 rows2 : forall st st1,
  for_rows env mode gmaps rows1 st = (st1, None) ->
  for_rows env mode gmaps (rows1 ++ rows2) st = for_rows env mode gmaps rows2 st1.
Proof.
  induction rows1 as [|[idx row] rows1 IH]; intros st st1 H.
  - cbn in H. injection H as <-. reflexivity.
  - cbn [for_rows app] in *.
    destruct (iteration env mode gmaps st idx row) as [e|st'].
    + discriminate.
    + exact (IH st' st1 H).
Qed.

Lemma for_rows_prefix rows st :
  exists more,
    results (fst (for_rows env mode gmaps rows st)) = results st ++ more.
Proof.
  destruct st as [tr rs w]. rewrite for_rows_acc.
  destruct (for_rows env mode gmaps rows (mkLoop [] [] w)) as [st e].
  exists (results st). reflexivity.
Qed.

(** On rows whose coordinate strings can be formed the loop runs to its
    end, and [results] grows by the records of the rows that yield one,
    in the order of the rows. *)
Lemma for_rows_outcomes rows : forall st,
  (forall idx row, In (idx, row) rows -> has_required row) ->
  snd (for_rows env mode gmaps rows st) = None /\
  results (fst (for_rows env mode gmaps rows st)) =
    results st ++ survivors (row_outcomes env mode gmaps rows (world st)) /\
  length (row_outcomes env mode gmaps rows (world st)) = length rows.
Proof.
  induction rows as [|[idx row] rows IH]; intros st Hreq.
  - cbn. rewrite app_nil_r. auto.
  - destruct (has_required_lat_lon row (Hreq idx row (or_introl eq_refl)))
      as (origin & destination & Ho & Hd).
    rewrite (for_rows_step env mode gmaps idx row rows st origin destination Ho Hd).
    cbn [row_outcomes]. rewrite Ho, Hd.
    destruct (row_body env mode gmaps idx row origin destination (world st))
      as [[evs r] w'].
    destruct (IH (mkLoop (trace st ++ evs) (append_result (results st) r) w'))
      as (Hnone & Hres & Hlen).
    { intros idx' row' Hin. apply (Hreq idx' row'). right. exact Hin. }
    cbn [world results] in Hres, Hlen.
    split; [exact Hnone|]. split.
    + rewrite Hres. destruct r as [x|]; cbn [append_result survivors].
      * rewrite <- app_assoc. reflexivity.
      * reflexivity.
    + cbn [length]. rewrite Hlen. reflexivity.
Qed.

End LoopFacts.

(** ** Messages name their row *)

Lemma prefix_app k s : String.prefix k (k ++ s) = true.
Proof.
  induction k as [|c k IH]; cbn.
  - destruct s; reflexivity.
  - destruct (ascii_dec c c) as [_|n]; [exact IH|destruct (n eq_refl)].
Qed.

Lemma is_substring_unfold k s :
  is_substring k s =
  if String.prefix k s then true
  else match s with
       | String _ s' => is_substring k s'
       | EmptyString => false
       end.
Proof. destruct s; reflexivity. Qed.

Lemma is_substring_app a k b : is_substring k (a ++ k ++ b) = true.
Proof.
  induction a as [|c a IH].
  - cbn [String.append]. rewrite is_substring_unfold, prefix_app. reflexivity.
  - cbn [String.append]. rewrite is_substring_unfold.
    destruct (String.prefix k (String c (a ++ k ++ b))); [reflexivity|exact IH].
Qed.

Lemma mentions_row_parse idx e : mentions_row idx (st_error (msg_parse idx e)).
Proof. apply is_substring_app. Qed.

Lemma mentions_row_fetch idx e : mentions_row idx (st_error (msg_fetch idx e)).
Proof. apply is_substring_app. Qed.

Lemma mentions_row_not_ok idx : mentions_row idx (st_warning (msg_not_ok idx)).
Proof. apply is_substring_app. Qed.

Lemma mentions_row_process idx e : mentions_row idx (st_error (msg_process idx e)).
Proof. apply is_substring_app. Qed.

(** ** Rows are all or nothing *)

Section StageFacts.

Context {W : Type} (env : Env W).
Variables (mode : string) (gmaps : option Client).
Variables (idx : nat) (row : Series) (origin destination : string) (w : W).

(** The handler reached after a failure of some stage reports it and
    leaves the iteration without a record. *)
Lemma row_fails_body msg sent w' :
  row_fails env mode gmaps idx row origin destination w msg sent w' ->
  row_body env mode gmaps idx row origin destination w = (sent ++ [msg], None, w').
Proof.
  intros H.
  destruct H as [e Hd|departure e w' sent Hd Hf
                |departure response w' sent element status Hd Hf He Hs Hne
                |departure response e w' sent Hd Hf Hx].
  - unfold row_body. rewrite Hd. reflexivity.
  - unfold row_body. rewrite Hd, Hf. reflexivity.
  - rewrite (row_body_fetched env mode gmaps idx row origin destination w
               departure response w' sent Hd Hf).
    rewrite (extract_not_ok mode origin destination departure response
               element status He Hs Hne).
    reflexivity.
  - rewrite (row_body_fetched env mode gmaps idx row origin destination w
               departure response w' sent Hd Hf), Hx.
    reflexivity.
Qed.

Lemma row_fails_mentions msg sent w' :
  row_fails env mode gmaps idx row origin destination w msg sent w' ->
  mentions_row idx msg.
Proof.
  intros H. destruct H.
  - apply mentions_row_parse.
  - apply mentions_row_fetch.
  - apply mentions_row_not_ok.
  - apply mentions_row_process.
Qed.

Lemma extract_NotOK_inv departure response :
  extract mode origin destination departure response = inr NotOK ->
  exists element status,
    first_element response = inr element /\
    get_method element "status" = inr status /\
    ne_OK status = true.
Proof.
  unfold extract.
  destruct (first_element response) as [e|element] eqn:He; cbn [bind];
    [discriminate|].
  destruct (get_method element "status") as [e|status] eqn:Hs; cbn [bind];
    [discriminate|].
  destruct (ne_OK status) eqn:Hne.
  - intros _. exists element, status. split; [reflexivity|split; assumption].
  - destruct (distance_fields element) as [e|distance]; cbn [bind]; [discriminate|].
    destruct (duration_fields mode element) as [e|duration]; cbn [bind];
      discriminate.
Qed.

(** An iteration ends in one of two ways: with a record and nothing
    reported, all three stages having gone through, or with no record
    and the report of the stage that failed. *)
Lemma row_body_cases evs r w' :
  row_body env mode gmaps idx row origin destination w = (evs, r, w') ->
  match r with
  | Some rec => row_survives env mode gmaps row origin destination w rec evs w'
  | None =>
      exists msg sent,
        row_fails env mode gmaps idx row origin destination w msg sent w' /\
        evs = sent ++ [msg]
  end.
Proof.
  unfold row_body.
  destruct (departure_datetime env row w) as [e|departure] eqn:Hd.
  { intros H. injection H as <- <- <-.
    exists (st_error (msg_parse idx e)), []. split; [|reflexivity].
    apply time_parse_failure. exact Hd. }
  destruct (fetch env mode gmaps origin destination departure w)
    as [[res w1] sent] eqn:Hf.
  destruct res as [e|response].
  { intros H. injection H as <- <- <-.
    exists (st_error (msg_fetch idx e)), sent. split; [|reflexivity].
    exact (query_failure env mode gmaps idx row origin destination w
             departure e w1 sent Hd Hf). }
  destruct (extract mode origin destination departure response)
    as [e|[|rec]] eqn:Hx; intros H; injection H as <- <- <-.
  - exists (st_error (msg_process idx e)), sent. split; [|reflexivity].
    exact (extraction_failure env mode gmaps idx row origin destination w
             departure response e w1 sent Hd Hf Hx).
  - destruct (extract_NotOK_inv departure response Hx)
      as (element & status & He & Hs & Hne).
    exists (st_warning (msg_not_ok idx)), sent. split; [|reflexivity].
    exact (status_not_ok env mode gmaps idx row origin destination w
             departure response w1 sent element status Hd Hf He Hs Hne).
  - exists departure, response. split; [exact Hd|split; [exact Hf|exact Hx]].
Qed.

Lemma row_survives_body rec sent w' :
  row_survives env mode gmaps row origin destination w rec sent w' ->
  row_body env mode gmaps idx row origin destination w = (sent, Some rec, w').
Proof.
  intros (departure & response & Hd & Hf & Hx).
  rewrite (row_body_fetched env mode gmaps idx row origin destination w
             departure response w' sent Hd Hf), Hx.
  reflexivity.
Qed.

End StageFacts.

(** C4.  A failed time parse, a failed query, a status other than OK
    and a failed extraction each skip that row alone: the message names
    the row index, the row appends no record, the loop goes on with the
    next row, and the records collected before stay as they were.  A
    row ends with its full record or with none. *)
Theorem failed_row_skipped {W} (env : Env W) mode gmaps idx row rows st
  origin destination :
  lat_lon row "OriginLat" "OriginLon" = inr origin ->
  lat_lon row "DestLat" "DestLon" = inr destination ->
  (forall msg sent w',
      row_fails env mode gmaps idx row origin destination (world st) msg sent w' ->
      row_body env mode gmaps idx row origin destination (world st)
        = (sent ++ [msg], None, w') /\
      mentions_row idx msg /\
      for_rows env mode gmaps ((idx, row) :: rows) st =
      for_rows env mode gmaps rows
        (mkLoop (trace st ++ sent ++ [msg]) (results st) w')) /\
  (forall evs r w',
      row_body env mode gmaps idx row origin destination (world st) = (evs, r, w') ->
      match r with
      | Some rec =>
          row_survives env mode gmaps row origin destination (world st) rec evs w'
      | None =>
          exists msg sent,
            row_fails env mode gmaps idx row origin destination (world st)
              msg sent w' /\
            evs = sent ++ [msg]
      end) /\
  (exists more,
      results (fst (for_rows env mode gmaps ((idx, row) :: rows) st))
      = results st ++ more).
Proof.
  intros Ho Hd. split; [|split].
  - intros msg sent w' Hfail.
    pose proof (row_fails_body env mode gmaps idx row origin destination
                  (world st) msg sent w' Hfail) as Hb.
    split; [exact Hb|]. split.
    + exact (row_fails_mentions env mode gmaps idx row origin destination
               (world st) msg sent w' Hfail).
    + exact (for_rows_skip env mode gmaps idx row rows st origin destination
               _ w' Ho Hd Hb).
  - intros evs r w'.
    apply (row_body_cases env mode gmaps idx row origin destination (world st)).
  - apply for_rows_prefix.
Qed.

(** The second row of the demo table has no readable time. *)
Lemma failed_row_skipped_witness :
  let env := Demo.env (inr Demo.table) Demo.service in
  let row := mkSeries Demo.header (Demo.line "52.6" (CellStr "half past two")) in
  row_body env "driving" (Some (mkClient "AIzaKey")) 1 row
    "52.6,13.4" "48.1,11.6" 0 =
  ([st_error
      "Error parsing 'endTime' for row 1: Unknown datetime string format, unable to parse"],
   None, 0).
Proof.
  cbv zeta.
  refine (proj1 (proj1
    (failed_row_skipped (Demo.env (inr Demo.table) Demo.service) "driving"
       (Some (mkClient "AIzaKey")) 1
       (mkSeries Demo.header (Demo.line "52.6" (CellStr "half past two")))
       [] (mkLoop [] [] 0) "52.6,13.4" "48.1,11.6" eq_refl eq_refl)
    (st_error (msg_parse 1
       (ValueError "Unknown datetime string format, unable to parse")))
    [] 0 _)).
  apply time_parse_failure. reflexivity.
Defined.

(** ** One record per surviving row, in the order of the rows *)

(** C5.  On a table that passed the column check the loop runs over
    every row; a row that goes through time parsing, query and
    extraction appends exactly one record, a row that fails a stage
    appends none, and [results] lists the records in the order of the
    rows they come from. *)
Theorem one_record_per_surviving_row {W} (env : Env W) mode gmaps df w :
  validate_columns df = true ->
  length (row_outcomes env mode gmaps (iterrows df) w) = length (data df) /\
  snd (for_rows env mode gmaps (iterrows df) (mkLoop [] [] w)) = None /\
  results_of env mode gmaps df w
    = survivors (row_outcomes env mode gmaps (iterrows df) w) /\
  (forall idx row origin destination w0 rec sent w',
      row_survives env mode gmaps row origin destination w0 rec sent w' ->
      row_body env mode gmaps idx row origin destination w0 = (sent, Some rec, w')) /\
  (forall idx row origin destination w0 msg sent w',
      row_fails env mode gmaps idx row origin destination w0 msg sent w' ->
      row_body env mode gmaps idx row origin destination w0
        = (sent ++ [msg], None, w')) /\
  (forall shown, exists tr,
      calculate env mode gmaps (Some df) shown w =
      mkRun (shown ++ tr ++ display env (results_of env mode gmaps df w)) None
        (final (calculate env mode gmaps (Some df) shown w))).
Proof.
  intros Hv.
  destruct (for_rows_outcomes env mode gmaps (iterrows df) (mkLoop [] [] w))
    as (Hnone & Hres & Hlen).
  { intros idx row Hin. exact (iterrows_required df idx row Hv Hin). }
  cbn [world results app] in Hres, Hlen.
  split; [rewrite Hlen; apply iterrows_length|].
  split; [exact Hnone|]. split; [exact Hres|]. split; [|split].
  - intros idx row origin destination w0 rec sent w'.
    apply row_survives_body.
  - intros idx row origin destination w0 msg sent w'.
    apply row_fails_body.
  - intros shown. unfold calculate, results_of. rewrite Hv. cbn [negb].
    rewrite (for_rows_acc env mode gmaps (iterrows df) shown [] w).
    destruct (for_rows env mode gmaps (iterrows df) (mkLoop [] [] w))
      as [st e]. cbn [snd] in Hnone. subst e. cbn [fst trace results world app final].
    exists (trace st). rewrite <- app_assoc. reflexivity.
Qed.

(** The demo table: rows 0 and 2 go through, row 1 does not. *)
Lemma one_record_per_surviving_row_witness :
  let env := Demo.env (inr Demo.table) Demo.service in
  map Origin (results_of env "driving" (Some (mkClient "AIzaKey")) Demo.table 0)
    = ["52.5,13.4"; "52.7,13.4"] /\
  length (row_outcomes env "driving" (Some (mkClient "AIzaKey"))
            (iterrows Demo.table) 0) = 3.
Proof.
  cbv zeta.
  pose proof (one_record_per_surviving_row
                (Demo.env (inr Demo.table) Demo.service) "driving"
                (Some (mkClient "AIzaKey")) Demo.table 0 eq_refl)
    as (Hlen & _ & Hres & _).
  split.
  - rewrite Hres. reflexivity.
  - rewrite Hlen. reflexivity.
Defined.

(** ** The departure time *)

Section DepartureFacts.

Context {W : Type} (env : Env W).
Variables (mode : string) (gmaps : option Client).

Lemma departure_datetime_parsed row w x d t :
  series_getitem row "endTime" = inr x ->
  to_datetime env x = inr (TS d t) ->
  departure_datetime env row w = inr (combine (date_today env w) t).
Proof.
  intros Hx Hts. unfold departure_datetime. rewrite Hx. cbn [bind].
  rewrite Hts. reflexivity.
Qed.

(** The only query an iteration sends is the one for its own strings
    and its own departure time. *)
Lemma row_body_queries idx row origin destination w departure evs r w' :
  departure_datetime env row w = inr departure ->
  row_body env mode gmaps idx row origin destination w = (evs, r, w') ->
  forall ev, In ev evs -> is_query ev = true ->
  ev = call_distance_matrix origin destination mode departure.
Proof.
  intros Hd. unfold row_body. rewrite Hd. unfold fetch.
  assert (Hin : forall (sent : list event) msg ev,
             (sent = [] \/
              sent = [call_distance_matrix origin destination mode departure]) ->
             is_query msg = false ->
             In ev (sent ++ [msg]) -> is_query ev = true ->
             ev = call_distance_matrix origin destination mode departure).
  { intros sent msg ev [-> | ->] Hmsg; cbn [app In].
    - intros [<- | []] Hq. rewrite Hmsg in Hq. discriminate.
    - intros [<- | [<- | []]] Hq; [reflexivity|].
      rewrite Hmsg in Hq. discriminate. }
  set (q := call_distance_matrix origin destination mode departure) in *.
  destruct gmaps as [client|].
  - destruct (distance_matrix env client origin destination mode departure w)
      as [res w1].
    destruct res as [e|response].
    + intros H. injection H as <- <- <-. intros ev.
      apply (Hin [q] (st_error (msg_fetch idx e)) ev);
        [right; reflexivity|reflexivity].
    + destruct (extract mode origin destination departure response)
        as [e|[|rec]]; intros H; injection H as <- <- <-; intros ev.
      * apply (Hin [q] (st_error (msg_process idx e)) ev);
          [right; reflexivity|reflexivity].
      * apply (Hin [q] (st_warning (msg_not_ok idx)) ev);
          [right; reflexivity|reflexivity].
      * cbn [In]. intros [<- | []] _. reflexivity.
  - cbn [raise]. intros H. injection H as <- <- <-. intros ev.
    apply (Hin [] (st_error (msg_fetch idx (NameError "gmaps"))) ev);
      [left; reflexivity|reflexivity].
Qed.

End DepartureFacts.

(** C2.  For a row whose [endTime] parses to a timestamp, the departure
    time is the calendar date read when that row is processed, in the
    world the rows before it have left, combined with the time of day
    of the timestamp; the date of the timestamp plays no part.  The
    query of the row and its record carry this departure time. *)
Theorem departure_uses_current_date {W} (env : Env W) mode gmaps
  rows1 idx row rows2 st st1 origin destination x d t :
  for_rows env mode gmaps rows1 st = (st1, None) ->
  lat_lon row "OriginLat" "OriginLon" = inr origin ->
  lat_lon row "DestLat" "DestLon" = inr destination ->
  series_getitem row "endTime" = inr x ->
  to_datetime env x = inr (TS d t) ->
  departure_datetime env row (world st1)
    = inr (combine (date_today env (world st1)) t) /\
  exists evs r w',
    row_body env mode gmaps idx row origin destination (world st1) = (evs, r, w') /\
    for_rows env mode gmaps (rows1 ++ (idx, row) :: rows2) st =
    for_rows env mode gmaps rows2
      (mkLoop (trace st1 ++ evs) (append_result (results st1) r) w') /\
    (forall rec, r = Some rec ->
                 Departure_Time rec = combine (date_today env (world st1)) t) /\
    (forall ev, In ev evs -> is_query ev = true ->
                ev = call_distance_matrix origin destination mode
                       (combine (date_today env (world st1)) t)).
Proof.
  intros Hloop Ho Hd Hx Hts.
  pose proof (departure_datetime_parsed env row (world st1) x d t Hx Hts) as Hdep.
  split; [exact Hdep|].
  destruct (row_body env mode gmaps idx row origin destination (world st1))
    as [[evs r] w'] eqn:Hb.
  exists evs, r, w'. split; [reflexivity|]. split; [|split].
  - rewrite (for_rows_app env mode gmaps rows1 _ st st1 Hloop).
    rewrite (for_rows_step env mode gmaps idx row rows2 st1 origin destination
               Ho Hd), Hb.
    reflexivity.
  - intros rec ->.
    pose proof (row_body_cases env mode gmaps idx row origin destination
                  (world st1) evs (Some rec) w' Hb) as Hs.
    destruct Hs as (departure & response & Hdep' & _ & Hex).
    rewrite Hdep in Hdep'. injection Hdep' as <-.
    exact (proj2 (proj2 (extract_appended mode origin destination _ response
                           rec Hex))).
  - exact (row_body_queries env mode gmaps idx row origin destination (world st1)
             _ evs r w' Hdep Hb).
Qed.

(** The time 14:30:00 of 2023-01-01, read on 2024-06-10, departs on
    2024-06-10 at 14:30:00; the third row, reached after midnight,
    departs on 2024-06-11. *)
Lemma departure_uses_current_date_witness :
  let env := Demo.env (inr Demo.table) Demo.service in
  let client := Some (mkClient "AIzaKey") in
  let row2 := mkSeries Demo.header
                (Demo.line "52.7" (CellStr "2022-12-31 23:45:10")) in
  let rows1 := firstn 2 (iterrows Demo.table) in
  departure_datetime env Demo.row0 0
    = inr (mkDatetime (mkDate 2024 6 10) (mkTime 14 30 0 0)) /\
  departure_datetime env row2
    (world (fst (for_rows env "driving" client rows1 (mkLoop [] [] 0))))
    = inr (mkDatetime (mkDate 2024 6 11) (mkTime 23 45 10 0)).
Proof.
  cbv zeta. split.
  - exact (proj1
      (departure_uses_current_date (Demo.env (inr Demo.table) Demo.service)
         "driving" (Some (mkClient "AIzaKey")) [] 0 Demo.row0 []
         (mkLoop [] [] 0) (mkLoop [] [] 0) "52.5,13.4" "48.1,11.6"
         (CellStr "2023-01-01 14:30:00") (mkDate 2023 1 1) (mkTime 14 30 0 0)
         eq_refl eq_refl eq_refl eq_refl eq_refl)).
  - exact (proj1
      (departure_uses_current_date (Demo.env (inr Demo.table) Demo.service)
         "driving" (Some (mkClient "AIzaKey"))
         (firstn 2 (iterrows Demo.table)) 2
         (mkSeries Demo.header (Demo.line "52.7" (CellStr "2022-12-31 23:45:10")))
         [] (mkLoop [] [] 0)
         (fst (for_rows (Demo.env (inr Demo.table) Demo.service) "driving"
                 (Some (mkClient "AIzaKey")) (firstn 2 (iterrows Demo.table))
                 (mkLoop [] [] 0)))
         "52.7,13.4" "48.1,11.6"
         (CellStr "2022-12-31 23:45:10") (mkDate 2022 12 31) (mkTime 23 45 10 0)
         eq_refl eq_refl eq_refl eq_refl eq_refl)).
Defined.

(** ** The run as a whole *)

Section RunFacts.

Context {W : Type} (env : Env W).

(** With the button pressed, a file uploaded and a key that is not
    blank, the run builds the client, loads the table and goes on. *)
Lemma main_calculates file mode api_key w :
  String.eqb (strip api_key) "" = false ->
  main env true (Some file) mode api_key w =
  calculate env mode (snd (create_client env api_key))
    (snd (load_csv env file))
    (fst (create_client env api_key) ++ fst (load_csv env file)) w.
Proof.
  intros Hkey. unfold main. cbn [negb]. rewrite Hkey.
  destruct (create_client env api_key) as [shown1 gmaps].
  destruct (load_csv env file) as [shown2 df]. reflexivity.
Qed.

Lemma create_client_quiet api_key :
  filter is_query (fst (create_client env api_key)) = [].
Proof.
  unfold create_client. destruct (new_client env api_key); reflexivity.
Qed.

Lemma validate_columns_spec df :
  validate_columns df = true <->
  forall col, In col required_cols -> In col (columns df).
Proof.
  unfold validate_columns, in_columns. rewrite forallb_forall.
  split; intros H col Hin.
  - destruct (proj1 (existsb_exists _ _) (H col Hin)) as (c & Hc & Heq).
    apply String.eqb_eq in Heq. subst c. exact Hc.
  - apply existsb_exists. exists col. split; [exact (H col Hin)|].
    apply String.eqb_refl.
Qed.

(** While [gmaps] is unbound every row ends with one error, of its
    time parse or of its query; nothing is sent and nothing collected. *)
Lemma for_rows_without_client mode rows : forall tr rs w,
  (forall idx row, In (idx, row) rows -> has_required row) ->
  for_rows env mode None rows (mkLoop tr rs w) =
  (mkLoop (tr ++ map (row_error_without_client env w) rows) rs w, None).
Proof.
  induction rows as [|[idx row] rows IH]; intros tr rs w Hreq.
  - cbn. rewrite app_nil_r. reflexivity.
  - destruct (has_required_lat_lon row (Hreq idx row (or_introl eq_refl)))
      as (origin & destination & Ho & Hd).
    rewrite (for_rows_step env mode None idx row rows _ origin destination Ho Hd).
    cbn [world trace results map]. unfold row_body, row_error_without_client.
    cbn [fst snd fetch raise].
    destruct (departure_datetime env row w) as [e|departure];
      cbn [append_result]; rewrite IH;
      try (intros idx' row' Hin; apply (Hreq idx' row'); right; exact Hin);
      rewrite <- app_assoc; reflexivity.
Qed.

End RunFacts.

(** C3, as the script has it.  The column check passes exactly when
    the five required names are all in the header.  When one is missing
    the run reports one fixed message, the list of all five required
    names, the same whichever names are missing, and ends there: no row
    is processed and no query is sent. *)
Theorem column_validation {W} (env : Env W) df :
  (validate_columns df = true <->
   In "OriginLat" (columns df) /\ In "OriginLon" (columns df) /\
   In "DestLat" (columns df) /\ In "DestLon" (columns df) /\
   In "endTime" (columns df)) /\
  (validate_columns df = true <-> missing_columns df = []) /\
  msg_columns =
    "CSV file must contain columns: OriginLat, OriginLon, DestLat, DestLon, endTime" /\
  (validate_columns df = false ->
   forall file mode api_key w,
     String.eqb (strip api_key) "" = false ->
     read_csv env file = inr df ->
     main env true (Some file) mode api_key w =
       mkRun (fst (create_client env api_key) ++ [st_error msg_columns]) None w /\
     filter is_query (page (main env true (Some file) mode api_key w)) = []).
Proof.
  split; [|split; [|split]].
  - rewrite validate_columns_spec. unfold required_cols. split.
    + intros H. repeat split; apply H; cbn; tauto.
    + intros (H1 & H2 & H3 & H4 & H5) col Hin. cbn [In] in Hin.
      destruct Hin as [<- | [<- | [<- | [<- | [<- | []]]]]]; assumption.
  - unfold validate_columns, missing_columns.
    induction required_cols as [|col cols IH]; cbn [forallb filter];
      [split; reflexivity|].
    destruct (in_columns col df); cbn [negb andb]; [exact IH|].
    split; discriminate.
  - reflexivity.
  - intros Hv file mode api_key w Hkey Hread.
    rewrite (main_calculates env file mode api_key w Hkey).
    unfold load_csv. rewrite Hread. cbn [fst snd calculate]. rewrite Hv.
    cbn [negb]. rewrite app_nil_r. split; [reflexivity|].
    cbn [page]. rewrite filter_app, create_client_quiet. reflexivity.
Qed.

(** A table without [DestLon] and [endTime]. *)
Lemma column_validation_witness :
  let df := mkDataFrame ["OriginLat"; "OriginLon"; "DestLat"]
              [[CellFloat "52.5"; CellFloat "13.4"; CellFloat "48.1"]] in
  main (Demo.env (inr df) Demo.service) true (Some "csv") "driving" "AIzaKey" 0 =
  mkRun
    [st_error
       "CSV file must contain columns: OriginLat, OriginLon, DestLat, DestLon, endTime"]
    None 0.
Proof.
  cbv zeta.
  exact (proj1 (proj2 (proj2 (proj2
    (column_validation
       (Demo.env
          (inr (mkDataFrame ["OriginLat"; "OriginLon"; "DestLat"]
                  [[CellFloat "52.5"; CellFloat "13.4"; CellFloat "48.1"]]))
          Demo.service)
       (mkDataFrame ["OriginLat"; "OriginLon"; "DestLat"]
          [[CellFloat "52.5"; CellFloat "13.4"; CellFloat "48.1"]]))))
    eq_refl "csv" "driving" "AIzaKey" 0 eq_refl eq_refl)).
Defined.

(** C3 as stated fails: the missing names are not collected.  On a
    table that lacks [endTime] alone the report also names
    [OriginLat], which the table has; and a table that lacks all five
    names gets the very same page. *)
Lemma column_report_counterexample :
  let df := mkDataFrame ["OriginLat"; "OriginLon"; "DestLat"; "DestLon"]
              [[CellFloat "52.5"; CellFloat "13.4"; CellFloat "48.1";
                CellFloat "11.6"]] in
  let shown :=
    page (main (Demo.env (inr df) Demo.service) true (Some "csv") "driving"
            "AIzaKey" 0) in
  missing_columns df = ["endTime"] /\
  shown = page (main (Demo.env (inr (mkDataFrame [] [])) Demo.service) true
                  (Some "csv") "driving" "AIzaKey" 0) /\
  ~ (forall col,
        In col required_cols ->
        (exists msg, In (st_error msg) shown /\ is_substring col msg = true) ->
        In col (missing_columns df)).
Proof.
  cbv zeta. split; [reflexivity|]. split; [reflexivity|].
  intros H.
  assert (Hin : In "OriginLat"
                  (missing_columns
                     (mkDataFrame ["OriginLat"; "OriginLon"; "DestLat"; "DestLon"]
                        [[CellFloat "52.5"; CellFloat "13.4"; CellFloat "48.1";
                          CellFloat "11.6"]]))).
  { apply H.
    - left. reflexivity.
    - exists msg_columns. split; [left; reflexivity|reflexivity]. }
  cbn in Hin. destruct Hin as [Hin|[]]. discriminate Hin.
Qed.

(** C7, what the script does.  When [read_csv] raises, the error is
    reported, but the run goes on to the column check, where [df] is
    unbound: a [NameError] escapes and ends the run. *)
Theorem unreadable_csv_escapes {W} (env : Env W) file mode api_key w e :
  String.eqb (strip api_key) "" = false ->
  read_csv env file = inl e ->
  main env true (Some file) mode api_key w =
  mkRun (fst (create_client env api_key) ++ [st_error (msg_read_csv e)])
    (Some (NameError "df")) w.
Proof.
  intros Hkey Hread. rewrite (main_calculates env file mode api_key w Hkey).
  unfold load_csv. rewrite Hread. reflexivity.
Qed.

Lemma unreadable_csv_escapes_witness :
  main (Demo.env (inl (ExternalError "No columns to parse from file")) Demo.service)
    true (Some "") "driving" "AIzaKey" 0 =
  mkRun [st_error "Error reading CSV file: No columns to parse from file"]
    (Some (NameError "df")) 0.
Proof.
  exact (unreadable_csv_escapes
           (Demo.env (inl (ExternalError "No columns to parse from file"))
              Demo.service)
           "" "driving" "AIzaKey" 0 _ eq_refl eq_refl).
Defined.

(** C8, as the script has it.  When the client cannot be built the
    error is reported and the run goes on; with the table loaded and
    its columns in place, every row then ends with one error, at the
    query for a row whose [endTime] parses and at the time parse for
    the others; no query is sent and no record is collected. *)
Theorem client_failure_falls_through {W} (env : Env W) file mode api_key w e df :
  String.eqb (strip api_key) "" = false ->
  new_client env api_key = inl e ->
  read_csv env file = inr df ->
  validate_columns df = true ->
  main env true (Some file) mode api_key w =
  mkRun (st_error (msg_client e)
           :: map (row_error_without_client env w) (iterrows df)
           ++ [st_info "No valid results to display."])
    None w.
Proof.
  intros Hkey Hclient Hread Hv.
  rewrite (main_calculates env file mode api_key w Hkey).
  unfold create_client, load_csv. rewrite Hclient, Hread.
  cbn [fst snd app calculate]. rewrite Hv. cbn [negb].
  rewrite for_rows_without_client.
  - reflexivity.
  - intros idx row Hin. exact (iterrows_required df idx row Hv Hin).
Qed.

Lemma client_failure_falls_through_witness :
  main (Demo.env (inr Demo.table) Demo.service) true (Some "csv") "driving" "bad" 0 =
  mkRun
    [st_error "Error creating Google Maps client: Invalid API key provided.";
     st_error
       "Error fetching data from Google API for row 0: name 'gmaps' is not defined";
     st_error
       "Error parsing 'endTime' for row 1: Unknown datetime string format, unable to parse";
     st_error
       "Error fetching data from Google API for row 2: name 'gmaps' is not defined";
     st_info "No valid results to display."]
    None 0.
Proof.
  exact (client_failure_falls_through (Demo.env (inr Demo.table) Demo.service)
           "csv" "driving" "bad" 0 (ValueError "Invalid API key provided.")
           Demo.table eq_refl eq_refl eq_refl eq_refl).
Defined.

(** C8 as stated fails: with the client not built, the second row of
    the demo table is turned away at the time parse and never reaches
    the query, so its failure is not one of the query stage. *)
Lemma client_failure_counterexample :
  let env := Demo.env (inr Demo.table) Demo.service in
  let shown := page (main env true (Some "csv") "driving" "bad" 0) in
  new_client env "bad" = inl (ValueError "Invalid API key provided.") /\
  ~ (forall idx row, In (idx, row) (iterrows Demo.table) ->
                     exists e, In (st_error (msg_fetch idx e)) shown).
Proof.
  cbv zeta. split; [reflexivity|].
  intros H.
  destruct (H 1 (mkSeries Demo.header (Demo.line "52.6" (CellStr "half past two"))))
    as [e He].
  { cbn. right. left. reflexivity. }
  vm_compute in He.
  destruct He as [He | [He | [He | [He | [He | []]]]]]; discriminate He.
Qed.

(** ** The guards of the run *)

Lemma string_app_nil_r s : (s ++ "")%string = s.
Proof.
  induction s as [|c s IH]; cbn [String.append]; [|rewrite IH]; reflexivity.
Qed.

Lemma string_app_assoc a b c : ((a ++ b) ++ c = a ++ (b ++ c))%string.
Proof.
  induction a as [|x a IH]; cbn [String.append]; [|rewrite IH]; reflexivity.
Qed.

Lemma string_rev_app a b :
  string_rev (a ++ b) = (string_rev b ++ string_rev a)%string.
Proof.
  induction a as [|x a IH]; cbn [String.append string_rev].
  - rewrite string_app_nil_r. reflexivity.
  - rewrite IH, string_app_assoc. reflexivity.
Qed.

Lemma string_rev_involutive s : string_rev (string_rev s) = s.
Proof.
  induction s as [|c s IH]; cbn [string_rev]; [reflexivity|].
  rewrite string_rev_app, IH. reflexivity.
Qed.

Lemma string_rev_empty s : string_rev s = "" -> s = "".
Proof.
  destruct s as [|c s]; [reflexivity|]. cbn [string_rev].
  destruct (string_rev s); discriminate.
Qed.

Section StripFacts.

Variables (p2 : ascii -> ascii -> bool) (p3 : ascii -> ascii -> ascii -> bool).

(** Stripping from the left leaves nothing exactly when the text is
    white space throughout. *)
Lemma lstrip_with_empty_iff s :
  lstrip_with p2 p3 s = "" <-> all_space_with p2 p3 s = true.
Proof.
  assert (H : forall n s, String.length s <= n ->
              (lstrip_with p2 p3 s = "" <-> all_space_with p2 p3 s = true)).
  { induction n as [|n IH]; intros t Hlen.
    - destruct t; [split; reflexivity|cbn in Hlen; lia].
    - destruct t as [|c1 s1]; [split; reflexivity|].
      cbn [lstrip_with all_space_with]. cbn [String.length] in Hlen.
      destruct (is_space c1); [apply IH; lia|].
      destruct s1 as [|c2 s2]; [split; discriminate|].
      cbn [String.length] in Hlen.
      destruct (p2 c1 c2); [apply IH; lia|].
      destruct s2 as [|c3 s3]; [split; discriminate|].
      cbn [String.length] in Hlen.
      destruct (p3 c1 c2 c3); cbn [andb]; [apply IH; lia|split; discriminate]. }
  exact (H (String.length s) s (le_n _)).
Qed.

(** What is left after stripping does not begin with white space. *)
Lemma lstrip_with_idem s :
  lstrip_with p2 p3 (lstrip_with p2 p3 s) = lstrip_with p2 p3 s.
Proof.
  assert (H : forall n s, String.length s <= n ->
              lstrip_with p2 p3 (lstrip_with p2 p3 s) = lstrip_with p2 p3 s).
  { induction n as [|n IH]; intros t Hlen.
    - destruct t; [reflexivity|cbn in Hlen; lia].
    - destruct t as [|c1 s1]; [reflexivity|].
      cbn [lstrip_with]. cbn [String.length] in Hlen.
      destruct (is_space c1) eqn:H1; [apply IH; lia|].
      destruct s1 as [|c2 s2]; [cbn [lstrip_with]; rewrite H1; reflexivity|].
      cbn [String.length] in Hlen.
      destruct (p2 c1 c2) eqn:H2; [apply IH; lia|].
      destruct s2 as [|c3 s3];
        [cbn [lstrip_with]; rewrite H1, H2; reflexivity|].
      cbn [String.length] in Hlen.
      destruct (p3 c1 c2 c3) eqn:H3; [apply IH; lia|].
      cbn [lstrip_with]. rewrite H1, H2, H3. reflexivity. }
  exact (H (String.length s) s (le_n _)).
Qed.

Lemma all_space_with_app a b :
  all_space_with p2 p3 a = true -> all_space_with p2 p3 b = true ->
  all_space_with p2 p3 (a ++ b) = true.
Proof.
  intros Ha Hb. revert Ha.
  assert (H : forall n a, String.length a <= n ->
              all_space_with p2 p3 a = true ->
              all_space_with p2 p3 (a ++ b) = true).
  { induction n as [|n IH]; intros t Hlen.
    - destruct t; [intros _; exact Hb|cbn in Hlen; lia].
    - destruct t as [|c1 s1]; [intros _; exact Hb|].
      cbn [all_space_with String.append]. cbn [String.length] in Hlen.
      destruct (is_space c1); [apply IH; lia|].
      destruct s1 as [|c2 s2]; [discriminate|].
      cbn [String.append String.length] in *.
      destruct (p2 c1 c2); [apply IH; lia|].
      destruct s2 as [|c3 s3]; [discriminate|].
      cbn [String.append String.length] in *.
      destruct (p3 c1 c2 c3); cbn [andb]; [apply IH; lia|discriminate]. }
  exact (H (String.length a) a (le_n _)).
Qed.

Hypothesis p2_lead : forall a b, p2 a b = true -> is_space a = false.
Hypothesis p3_lead :
  forall a b c, p3 a b c = true -> is_space a = false /\ p2 a b = false.

(** White space read from the end is white space read from the start. *)
Lemma all_space_with_rev t :
  all_space_with (fun c1 c2 => p2 c2 c1) (fun c1 c2 c3 => p3 c3 c2 c1) t = true ->
  all_space_with p2 p3 (string_rev t) = true.
Proof.
  assert (H : forall n t, String.length t <= n ->
              all_space_with (fun c1 c2 => p2 c2 c1)
                (fun c1 c2 c3 => p3 c3 c2 c1) t = true ->
              all_space_with p2 p3 (string_rev t) = true).
  { induction n as [|n IH]; intros u Hlen.
    - destruct u; [reflexivity|cbn in Hlen; lia].
    - destruct u as [|c1 s1]; [reflexivity|].
      cbn [all_space_with string_rev]. cbn [String.length] in Hlen.
      destruct (is_space c1) eqn:H1.
      { intros Hs. apply all_space_with_app; [apply IH; [lia|exact Hs]|].
        cbn [all_space_with]. rewrite H1. reflexivity. }
      destruct s1 as [|c2 s2]; [discriminate|].
      cbn [string_rev String.length] in *.
      destruct (p2 c2 c1) eqn:H2.
      { intros Hs. rewrite string_app_assoc.
        apply all_space_with_app; [apply IH; [lia|exact Hs]|].
        cbn [all_space_with String.append].
        rewrite (p2_lead c2 c1 H2), H2. reflexivity. }
      destruct s2 as [|c3 s3]; [discriminate|].
      cbn [string_rev String.length] in *.
      destruct (p3 c3 c2 c1) eqn:H3; cbn [andb]; [|discriminate].
      intros Hs. rewrite !string_app_assoc.
      apply all_space_with_app; [apply IH; [lia|exact Hs]|].
      cbn [all_space_with String.append].
      destruct (p3_lead c3 c2 c1 H3) as [Hl1 Hl2].
      rewrite Hl1, Hl2, H3. reflexivity. }
  exact (H (String.length t) t (le_n _)).
Qed.

End StripFacts.

Lemma is_space2_lead a b : is_space2 a b = true -> is_space a = false.
Proof.
  unfold is_space2, is_space. cbv zeta.
  destruct (Nat.eqb_spec (nat_of_ascii a) 194) as [->|_]; [|discriminate].
  reflexivity.
Qed.

Lemma is_space3_lead a b c :
  is_space3 a b c = true -> is_space a = false /\ is_space2 a b = false.
Proof.
  unfold is_space3, is_space2, is_space. cbv zeta.
  destruct (Nat.eqb_spec (nat_of_ascii a) 225) as [->|_]; [split; reflexivity|].
  destruct (Nat.eqb_spec (nat_of_ascii a) 226) as [->|_]; [split; reflexivity|].
  destruct (Nat.eqb_spec (nat_of_ascii a) 227) as [->|_]; [split; reflexivity|].
  cbn [andb orb]. discriminate.
Qed.

(** [strip] leaves nothing exactly when the text is white space only. *)
Lemma strip_empty_iff s : strip s = "" <-> all_space s = true.
Proof.
  unfold strip, all_space, lstrip. split.
  - intros H. unfold rstrip in H. apply string_rev_empty in H.
    apply lstrip_with_empty_iff in H.
    apply (all_space_with_rev is_space2 is_space3 is_space2_lead is_space3_lead)
      in H.
    rewrite string_rev_involutive in H.
    apply lstrip_with_empty_iff in H. rewrite lstrip_with_idem in H.
    apply lstrip_with_empty_iff. exact H.
  - intros H. apply lstrip_with_empty_iff in H. rewrite H. reflexivity.
Qed.

(** X1.  A key made of white space only, the empty key and keys of
    no-break or other Unicode spaces among them, is turned away with
    the one message before the client is built or the file read; a key
    with any other character lets the run go on. *)
Theorem blank_key_rejected {W} (env : Env W) file mode api_key w :
  (all_space api_key = true ->
   main env true (Some file) mode api_key w =
   mkRun [st_error "Please provide a valid Google API key."] None w) /\
  (all_space api_key = false ->
   main env true (Some file) mode api_key w =
   calculate env mode (snd (create_client env api_key))
     (snd (load_csv env file))
     (fst (create_client env api_key) ++ fst (load_csv env file)) w).
Proof.
  split; intros H.
  - unfold main. cbn [negb].
    rewrite (proj2 (strip_empty_iff api_key) H). reflexivity.
  - apply main_calculates. destruct (String.eqb (strip api_key) "") eqn:E;
      [|reflexivity].
    apply String.eqb_eq in E. apply strip_empty_iff in E. congruence.
Qed.

(** A key of a no-break space, a blank and an ideographic space. *)
Lemma blank_key_rejected_witness :
  main (Demo.env (inr Demo.table) Demo.service) true (Some "csv") "driving"
    (nbsp ++ " " ++ ideographic_space)%string 0 =
  mkRun [st_error "Please provide a valid Google API key."] None 0.
Proof.
  exact (proj1 (blank_key_rejected (Demo.env (inr Demo.table) Demo.service)
                  "csv" "driving" (nbsp ++ " " ++ ideographic_space)%string 0)
           eq_refl).
Defined.

(** X2.  The only exception that can end a run is the [NameError] for
    [df], and it does so only when [read_csv] has raised: on a table
    that was read, whatever its columns and rows, the run ends normally. *)
Theorem only_name_error_escapes {W} (env : Env W) button uploaded_file mode
  api_key w e :
  uncaught (main env button uploaded_file mode api_key w) = Some e ->
  e = NameError "df" /\
  exists file err, uploaded_file = Some file /\ read_csv env file = inl err.
Proof.
  unfold main. destruct button; cbn [negb]; [|discriminate].
  destruct uploaded_file as [file|]; [|discriminate].
  destruct (String.eqb (strip api_key) ""); [discriminate|].
  destruct (create_client env api_key) as [shown1 gmaps].
  unfold load_csv. destruct (read_csv env file) as [err|df] eqn:Hread.
  - cbn. intros H. injection H as <-. split; [reflexivity|].
    exists file, err. split; [reflexivity|exact Hread].
  - unfold calculate. destruct (validate_columns df) eqn:Hv; cbn [negb];
      [|discriminate].
    rewrite (for_rows_acc env mode gmaps (iterrows df)).
    pose proof (for_rows_outcomes env mode gmaps (iterrows df) (mkLoop [] [] w)
                  (fun idx row Hin => iterrows_required df idx row Hv Hin))
      as (Hnone & _).
    destruct (for_rows env mode gmaps (iterrows df) (mkLoop [] [] w)) as [st x].
    cbn [snd] in Hnone. subst x. discriminate.
Qed.

Lemma only_name_error_escapes_witness :
  NameError "df" = NameError "df" /\
  exists file err,
    Some "" = Some file /\
    read_csv (Demo.env (inl (ExternalError "No columns to parse from file"))
                Demo.service) file = inl err.
Proof.
  exact (only_name_error_escapes
           (Demo.env (inl (ExternalError "No columns to parse from file"))
              Demo.service)
           true (Some "") "driving" "AIzaKey" 0 (NameError "df") eq_refl).
Defined.

(** ** What an iteration puts on the page *)

Section EventFacts.

Context {W : Type} (env : Env W).
Variables (mode : string) (gmaps : option Client).

Lemma departure_datetime_end_time row w :
  departure_datetime env row w =
  match end_time env row with
  | inl e => inl e
  | inr t => inr (combine (date_today env w) t)
  end.
Proof.
  unfold departure_datetime, end_time.
  destruct (series_getitem row "endTime") as [e|x]; cbn [bind]; [reflexivity|].
  destruct (to_datetime env x) as [e|ts]; cbn [bind]; [reflexivity|].
  destruct (time_method ts); reflexivity.
Qed.

(** The events of an iteration: the query if one was sent, then the
    report if the row failed.  With these come the count of reports,
    the queries, and the world when nothing was sent. *)
Lemma row_body_events idx row origin destination w evs r w' :
  row_body env mode gmaps idx row origin destination w = (evs, r, w') ->
  Forall (fun ev => is_query ev || is_report ev = true) evs /\
  length (filter is_report evs) = match r with Some _ => 0 | None => 1 end /\
  filter is_query evs =
    match end_time env row, gmaps with
    | inr t, Some _ =>
        [call_distance_matrix origin destination mode
           (combine (date_today env w) t)]
    | _, _ => []
    end /\
  (endTime_parses env row = false \/ gmaps = None -> w' = w).
Proof.
  unfold row_body, endTime_parses. rewrite departure_datetime_end_time.
  destruct (end_time env row) as [e|t].
  { intros H. injection H as <- <- <-. repeat constructor. }
  unfold fetch. destruct gmaps as [client|].
  - destruct (distance_matrix env client origin destination mode
                (combine (date_today env w) t) w) as [res w1].
    destruct res as [e|response].
    + intros H. injection H as <- <- <-.
      split; [repeat constructor|]. split; [reflexivity|].
      split; [reflexivity|]. intros [H|H]; discriminate H.
    + destruct (extract mode origin destination (combine (date_today env w) t)
                  response) as [e|[|rec]];
        intros H; injection H as <- <- <-;
        (split; [repeat constructor|]); (split; [reflexivity|]);
        (split; [reflexivity|]); intros [H|H]; discriminate H.
  - cbn [raise]. intros H. injection H as <- <- <-.
    split; [repeat constructor|]. split; [reflexivity|].
    split; [reflexivity|]. intros _. reflexivity.
Qed.

(** The same, summed over the rows the loop goes through. *)
Lemma for_rows_events rows : forall st,
  (forall idx row, In (idx, row) rows -> has_required row) ->
  exists tr w',
    fst (for_rows env mode gmaps rows st) =
      mkLoop (trace st ++ tr)
        (results st ++ survivors (row_outcomes env mode gmaps rows (world st))) w' /\
    Forall (fun ev => is_query ev || is_report ev = true) tr /\
    length (survivors (row_outcomes env mode gmaps rows (world st)))
      + length (filter is_report tr) = length rows /\
    (gmaps <> None ->
     length (filter is_query tr)
     = length (filter (fun r => endTime_parses env (snd r)) rows)).
Proof.
  induction rows as [|[idx row] rows IH]; intros st Hreq.
  - exists [], (world st). cbn. rewrite !app_nil_r. destruct st.
    repeat split; constructor.
  - destruct (has_required_lat_lon row (Hreq idx row (or_introl eq_refl)))
      as (origin & destination & Ho & Hd).
    rewrite (for_rows_step env mode gmaps idx row rows st origin destination Ho Hd).
    cbn [row_outcomes]. rewrite Ho, Hd.
    destruct (row_body env mode gmaps idx row origin destination (world st))
      as [[evs r] w1] eqn:Hb.
    destruct (row_body_events idx row origin destination (world st) evs r w1 Hb)
      as (Hall & Hrep & Hq & _).
    destruct (IH (mkLoop (trace st ++ evs) (append_result (results st) r) w1))
      as (tr & w' & Hst & Htr & Hcount & Hqs).
    { intros idx' row' Hin. apply (Hreq idx' row'). right. exact Hin. }
    cbn [trace results world] in Hst, Hcount, Hqs.
    exists (evs ++ tr), w'. split; [|split; [|split]].
    + rewrite Hst, <- app_assoc. f_equal.
      destruct r as [x|]; cbn [append_result survivors];
        [rewrite <- app_assoc|]; reflexivity.
    + apply Forall_app. split; assumption.
    + rewrite filter_app, length_app, Hrep. cbn [length].
      destruct r as [x|]; cbn [survivors length]; lia.
    + intros Hclient. rewrite filter_app, length_app, Hq, (Hqs Hclient).
      cbn [filter snd]. unfold endTime_parses.
      destruct (end_time env row) as [e|t]; [reflexivity|].
      destruct gmaps; [reflexivity|congruence].
Qed.

End EventFacts.

(** X3.  On a table that passed the column check every row is
    accounted for once: the records collected and the errors and
    warnings reported by the loop add up to the number of rows. *)
Theorem every_row_accounted {W} (env : Env W) mode gmaps df w :
  validate_columns df = true ->
  length (results (fst (for_rows env mode gmaps (iterrows df) (mkLoop [] [] w))))
  + length (filter is_report
              (trace (fst (for_rows env mode gmaps (iterrows df) (mkLoop [] [] w)))))
  = length (data df).
Proof.
  intros Hv.
  destruct (for_rows_events env mode gmaps (iterrows df) (mkLoop [] [] w)
              (fun idx row Hin => iterrows_required df idx row Hv Hin))
    as (tr & w' & Hst & _ & Hcount & _).
  rewrite Hst. cbn [results trace world app] in *.
  rewrite Hcount. apply iterrows_length.
Qed.

Lemma every_row_accounted_witness :
  let st := fst (for_rows (Demo.env (inr Demo.table) Demo.service) "driving"
                   (Some (mkClient "AIzaKey")) (iterrows Demo.table)
                   (mkLoop [] [] 0)) in
  length (results st) + length (filter is_report (trace st)) = 3.
Proof.
  exact (every_row_accounted (Demo.env (inr Demo.table) Demo.service) "driving"
           (Some (mkClient "AIzaKey")) Demo.table 0 eq_refl).
Defined.

(** X4.  A row sends at most one query and never repeats it: exactly
    the one for its own strings, the selected mode and its departure
    time when its [endTime] parses and the client exists, and none
    otherwise, in which case the world is left as it was. *)
Theorem one_query_per_row {W} (env : Env W) mode gmaps idx row
  origin destination w evs r w' :
  row_body env mode gmaps idx row origin destination w = (evs, r, w') ->
  filter is_query evs =
    match end_time env row, gmaps with
    | inr t, Some _ =>
        [call_distance_matrix origin destination mode
           (combine (date_today env w) t)]
    | _, _ => []
    end /\
  (endTime_parses env row = false \/ gmaps = None -> w' = w).
Proof.
  intros Hb.
  destruct (row_body_events env mode gmaps idx row origin destination w evs r w' Hb)
    as (_ & _ & Hq & Hw).
  split; assumption.
Qed.

Lemma one_query_per_row_witness :
  let env := Demo.env (inr Demo.table) Demo.service in
  filter is_query
    (fst (fst (row_body env "driving" (Some (mkClient "AIzaKey")) 0 Demo.row0
                 "52.5,13.4" "48.1,11.6" 0)))
  = [call_distance_matrix "52.5,13.4" "48.1,11.6" "driving"
       (mkDatetime (mkDate 2024 6 10) (mkTime 14 30 0 0))].
Proof.
  cbv zeta.
  exact (proj1 (one_query_per_row (Demo.env (inr Demo.table) Demo.service)
                  "driving" (Some (mkClient "AIzaKey")) 0 Demo.row0
                  "52.5,13.4" "48.1,11.6" 0 _ _ _ eq_refl)).
Defined.

(** X5.  With the client built, the loop over a table that passed the
    column check sends as many queries as there are rows whose
    [endTime] parses. *)
Theorem queries_match_parsed_rows {W} (env : Env W) mode client df w :
  validate_columns df = true ->
  length (filter is_query
            (trace (fst (for_rows env mode (Some client) (iterrows df)
                           (mkLoop [] [] w)))))
  = length (filter (fun r => endTime_parses env (snd r)) (iterrows df)).
Proof.
  intros Hv.
  destruct (for_rows_events env mode (Some client) (iterrows df) (mkLoop [] [] w)
              (fun idx row Hin => iterrows_required df idx row Hv Hin))
    as (tr & w' & Hst & _ & _ & Hq).
  rewrite Hst. cbn [trace app]. apply Hq. discriminate.
Qed.

Lemma queries_match_parsed_rows_witness :
  length (filter is_query
            (trace (fst (for_rows (Demo.env (inr Demo.table) Demo.service)
                           "driving" (Some (mkClient "AIzaKey"))
                           (iterrows Demo.table) (mkLoop [] [] 0)))))
  = 2.
Proof.
  exact (queries_match_parsed_rows (Demo.env (inr Demo.table) Demo.service)
           "driving" (mkClient "AIzaKey") Demo.table 0 eq_refl).
Defined.

(** ** What the run shows at its end *)

(** X6.  On a table that passed the column check the run offers the
    download exactly when at least one row went through: with no record
    the page ends with the note that there is nothing to display and
    has no download; with records it has no such note and offers the
    CSV of exactly these records under the name [distance_matrix.csv]. *)
Theorem download_iff_results {W} (env : Env W) mode gmaps df w :
  validate_columns df = true ->
  let shown := page (calculate env mode gmaps (Some df) [] w) in
  let rs := results_of env mode gmaps df w in
  (rs = [] ->
   existsb is_download shown = false /\
   exists tr, shown = tr ++ [st_info "No valid results to display."]) /\
  (rs <> [] ->
   existsb is_info shown = false /\
   exists tr,
     shown = tr ++ [st_write "### Travel Time & Distance Results" rs;
                    st_download_button "Download results as CSV" (to_csv env rs)
                      "distance_matrix.csv" "text/csv"] /\
     existsb is_download tr = false).
Proof.
  intros Hv. cbv zeta. unfold calculate, results_of. rewrite Hv. cbn [negb].
  destruct (for_rows_events env mode gmaps (iterrows df) (mkLoop [] [] w)
              (fun idx row Hin => iterrows_required df idx row Hv Hin))
    as (tr & w' & Hst & Htr & _ & _).
  pose proof (for_rows_outcomes env mode gmaps (iterrows df) (mkLoop [] [] w)
                (fun idx row Hin => iterrows_required df idx row Hv Hin))
    as (Hnone & _).
  destruct (for_rows env mode gmaps (iterrows df) (mkLoop [] [] w)) as [st x].
  cbn [fst snd] in *. subst x. rewrite Hst. cbn [trace results world page app].
  assert (Hd : existsb is_download tr = false).
  { clear Hst. induction Htr as [|ev tr Hev _ IH]; [reflexivity|].
    cbn [existsb]. rewrite IH. destruct ev; try reflexivity; discriminate Hev. }
  assert (Hi : existsb is_info tr = false).
  { clear Hst Hd. induction Htr as [|ev tr Hev _ IH]; [reflexivity|].
    cbn [existsb]. rewrite IH. destruct ev; try reflexivity; discriminate Hev. }
  split.
  - intros Hrs. rewrite Hrs. cbn [display]. split.
    + rewrite existsb_app, Hd. reflexivity.
    + exists tr. reflexivity.
  - intros Hrs.
    destruct (survivors (row_outcomes env mode gmaps (iterrows df) w))
      as [|rec rs]; [congruence|].
    cbn [display]. split.
    + rewrite existsb_app, Hi. reflexivity.
    + exists tr. split; [reflexivity|exact Hd].
Qed.

(** All rows of the table are turned away: nothing to download. *)
Lemma download_iff_results_witness :
  let env := Demo.env (inr Demo.table)
               (fun _ => ret (Demo.response_of [Demo.element_not_found])) in
  existsb is_download
    (page (calculate env "driving" (Some (mkClient "AIzaKey"))
             (Some Demo.table) [] 0)) = false.
Proof.
  cbv zeta.
  exact (proj1 (proj1
    (download_iff_results
       (Demo.env (inr Demo.table)
          (fun _ => ret (Demo.response_of [Demo.element_not_found])))
       "driving" (Some (mkClient "AIzaKey")) Demo.table 0 eq_refl) eq_refl)).
Defined.

(** ** Where a record comes from *)

Lemma lat_lon_inv row lat lon s :
  lat_lon row lat lon = inr s ->
  exists a b,
    series_getitem row lat = inr a /\ series_getitem row lon = inr b /\
    s = (cell_str a ++ "," ++ cell_str b)%string.
Proof.
  unfold lat_lon.
  destruct (series_getitem row lat) as [e|a]; cbn [bind]; [discriminate|].
  destruct (series_getitem row lon) as [e|b]; cbn [bind]; [discriminate|].
  intros H. injection H as <-. exists a, b. repeat split.
Qed.

(** X7.  Every record of the loop comes from one row of the table: its
    [Origin] is the text of that row's [OriginLat] and [OriginLon]
    cells joined by a comma, its [Destination] that of [DestLat] and
    [DestLon], whatever the mode. *)
Theorem record_from_row {W} (env : Env W) mode gmaps rows st rec :
  In rec (results (fst (for_rows env mode gmaps rows st))) ->
  In rec (results st) \/
  exists idx row a b c d,
    In (idx, row) rows /\
    series_getitem row "OriginLat" = inr a /\
    series_getitem row "OriginLon" = inr b /\
    series_getitem row "DestLat" = inr c /\
    series_getitem row "DestLon" = inr d /\
    Origin rec = (cell_str a ++ "," ++ cell_str b)%string /\
    Destination rec = (cell_str c ++ "," ++ cell_str d)%string.
Proof.
  revert st. induction rows as [|[idx row] rows IH]; intros st.
  - cbn. intros H. left. exact H.
  - cbn [for_rows]. unfold iteration.
    destruct (lat_lon row "OriginLat" "OriginLon") as [e|origin] eqn:Ho;
      cbn [bind]; [cbn; intros H; left; exact H|].
    destruct (lat_lon row "DestLat" "DestLon") as [e|destination] eqn:Hd;
      cbn [bind]; [cbn; intros H; left; exact H|].
    destruct (row_body env mode gmaps idx row origin destination (world st))
      as [[evs r] w'] eqn:Hb.
    cbn [ret]. intros H. destruct (IH _ H) as [Hin|Hex].
    + cbn [results] in Hin. destruct r as [x|]; cbn [append_result] in Hin;
        [|left; exact Hin].
      apply in_app_or in Hin. destruct Hin as [Hin|[<-|[]]]; [left; exact Hin|].
      right.
      pose proof (row_body_cases env mode gmaps idx row origin destination
                    (world st) evs (Some x) w' Hb) as Hs.
      destruct Hs as (departure & response & _ & _ & Hx).
      destruct (extract_appended mode origin destination departure response x Hx)
        as (Hor & Hde & _).
      destruct (lat_lon_inv row _ _ origin Ho) as (a & b & Ha & Hb' & ->).
      destruct (lat_lon_inv row _ _ destination Hd) as (c & d & Hc & Hd' & ->).
      exists idx, row, a, b, c, d.
      split; [left; reflexivity|]. repeat (split; [assumption|]). assumption.
    + right. destruct Hex as (idx' & row' & a & b & c & d & Hin & Hrest).
      exists idx', row', a, b, c, d. split; [right; exact Hin|exact Hrest].
Qed.

Lemma record_from_row_witness :
  let env := Demo.env (inr Demo.table) Demo.service in
  let departure := mkDatetime (mkDate 2024 6 10) (mkTime 14 30 0 0) in
  let rec := mkTravelResult "52.5,13.4" "48.1,11.6" departure (PStr "5.2 km")
               (PInt 5200) (PStr "10 mins") (PInt 600) in
  In rec [] \/
  exists idx row a b c d,
    In (idx, row) (iterrows Demo.table) /\
    series_getitem row "OriginLat" = inr a /\
    series_getitem row "OriginLon" = inr b /\
    series_getitem row "DestLat" = inr c /\
    series_getitem row "DestLon" = inr d /\
    Origin rec = (cell_str a ++ "," ++ cell_str b)%string /\
    Destination rec = (cell_str c ++ "," ++ cell_str d)%string.
Proof.
  cbv zeta.
  apply (record_from_row (Demo.env (inr Demo.table) Demo.service) "walking"
           (Some (mkClient "AIzaKey")) (iterrows Demo.table) (mkLoop [] [] 0)).
  left. reflexivity.
Defined.

(** ** Fields that are required *)

(** X8.  When the duration is to be read from the plain [duration]
    field, the mode not being driving or the element having no traffic
    field, and the element has no [duration] key, the row fails with
    the [KeyError] for it and appends no record, even when the element
    does carry a [duration_in_traffic]. *)
Theorem missing_duration_fails {W} (env : Env W) mode gmaps idx row
  origin destination w departure response w' sent items dt dv :
  departure_datetime env row w = inr departure ->
  fetch env mode gmaps origin destination departure w = (inr response, w', sent) ->
  first_element response = inr (PDict items) ->
  dict_lookup "status" items = Some (PStr "OK") ->
  distance_fields (PDict items) = inr (dt, dv) ->
  String.eqb mode "driving" && dict_has "duration_in_traffic" items = false ->
  dict_lookup "duration" items = None ->
  extract mode origin destination departure response = inl (KeyError "duration") /\
  row_body env mode gmaps idx row origin destination w =
    (sent ++ [st_error (msg_process idx (KeyError "duration"))], None, w').
Proof.
  intros Hdep Hfetch He Hs Hdist Hsel Hnone.
  assert (Hx : extract mode origin destination departure response
               = inl (KeyError "duration")).
  { rewrite (extract_ok mode origin destination departure response items He Hs).
    rewrite Hdist. cbn [bind]. unfold duration_fields. cbn [contains bind ret].
    rewrite Hsel. cbn [getitem_str]. rewrite Hnone. reflexivity. }
  split; [exact Hx|].
  rewrite (row_body_fetched env mode gmaps idx row origin destination w
             departure response w' sent Hdep Hfetch), Hx.
  reflexivity.
Qed.

(** Walking, with only the traffic duration in the element. *)
Lemma missing_duration_fails_witness :
  let element := PDict [("duration_in_traffic", Demo.fields "13 mins" 750);
                        ("status", PStr "OK")] in
  let env := Demo.env (inr Demo.table) (fun _ => ret (Demo.response_of [element])) in
  row_body env "walking" (Some (mkClient "AIzaKey")) 0 Demo.row0
    "52.5,13.4" "48.1,11.6" 0 =
  ([call_distance_matrix "52.5,13.4" "48.1,11.6" "walking"
      (mkDatetime (mkDate 2024 6 10) (mkTime 14 30 0 0));
    st_error "Error processing API response for row 0: 'duration'"],
   None, 1).
Proof.
  cbv zeta.
  exact (proj2
    (missing_duration_fails
       (Demo.env (inr Demo.table)
          (fun _ => ret (Demo.response_of
                           [PDict [("duration_in_traffic", Demo.fields "13 mins" 750);
                                   ("status", PStr "OK")]])))
       "walking" (Some (mkClient "AIzaKey")) 0 Demo.row0 "52.5,13.4" "48.1,11.6" 0
       _ _ 1 _ _ (PStr "N/A") PNone
       eq_refl eq_refl eq_refl eq_refl eq_refl eq_refl eq_refl)).
Defined.

(** X9.  Only a [distance] that is absent altogether is defaulted: when
    the element has a [distance] whose ['text'] or ['value'] cannot be
    read, the extraction raises that lookup error, whatever the
    durations are. *)
Theorem partial_distance_fails mode origin destination departure response
  items dist e :
  first_element response = inr (PDict items) ->
  dict_lookup "status" items = Some (PStr "OK") ->
  dict_lookup "distance" items = Some dist ->
  getitem_str dist "text" = inl e \/
  (exists t, getitem_str dist "text" = inr t) /\ getitem_str dist "value" = inl e ->
  extract mode origin destination departure response = inl e.
Proof.
  intros He Hs Hdist Hbad.
  rewrite (extract_ok mode origin destination departure response items He Hs).
  unfold distance_fields. cbn [contains bind ret]. unfold dict_has.
  rewrite Hdist. cbn [getitem_str]. rewrite Hdist. cbn [bind ret].
  destruct Hbad as [Ht | [[t Ht] Hv]]; rewrite Ht; cbn [bind]; [reflexivity|].
  rewrite Hv. reflexivity.
Qed.

(** A distance with its text but without its value. *)
Lemma partial_distance_fails_witness :
  let element := PDict [("distance", PDict [("text", PStr "5.2 km")]);
                        ("duration", Demo.fields "10 mins" 600);
                        ("status", PStr "OK")] in
  extract "driving" "A" "B" (mkDatetime (mkDate 2024 6 10) (mkTime 14 30 0 0))
    (Demo.response_of [element]) = inl (KeyError "value").
Proof.
  cbv zeta.
  eapply (partial_distance_fails "driving" "A" "B" _ _ _
            (PDict [("text", PStr "5.2 km")]) (KeyError "value")).
  - reflexivity.
  - reflexivity.
  - reflexivity.
  - right. split; [exists (PStr "5.2 km")|]; reflexivity.
Defined.

(** X10.  The extraction looks at the first element of the first row
    and at nothing else of the response: further rows, further
    elements and the other keys do not change its outcome. *)
Theorem only_first_element_used mode origin destination departure
  items entry more_rows element more_elements :
  dict_lookup "rows" items = Some (PList (entry :: more_rows)) ->
  getitem_str entry "elements" = inr (PList (element :: more_elements)) ->
  extract mode origin destination departure (PDict items) =
  extract mode origin destination departure (only_element element).
Proof.
  intros Hrows Hel. unfold extract, first_element.
  cbn [getitem_str only_element dict_lookup String.eqb].
  rewrite Hrows. cbn [bind ret getitem_0]. rewrite Hel. reflexivity.
Qed.

Lemma only_first_element_used_witness :
  let departure := mkDatetime (mkDate 2024 6 10) (mkTime 14 30 0 0) in
  let response :=
    PDict [("rows",
            PList [PDict [("elements",
                           PList [Demo.element_traffic; Demo.element_not_found])];
                   PDict [("elements", PList [Demo.element_no_status])]]);
           ("status", PStr "OK")] in
  extract "driving" "A" "B" departure response =
  extract "driving" "A" "B" departure (only_element Demo.element_traffic).
Proof.
  cbv zeta.
  eapply (only_first_element_used "driving" "A" "B"); reflexivity.
Defined.

(** ** Messages of different rows *)

Lemma str_nat_inj n m : str_nat n = str_nat m -> n = m.
Proof.
  unfold str_nat. intros H.
  assert (Hnil : forall k, Nat.to_uint k <> Decimal.Nil).
  { intros k Hk. pose proof (DecimalNat.Unsigned.of_to k) as Hof.
    rewrite Hk in Hof. cbn in Hof. subst k. discriminate Hk. }
  pose proof (NilZero.usu (Nat.to_uint n) (Hnil n)) as Hn.
  pose proof (NilZero.usu (Nat.to_uint m) (Hnil m)) as Hm.
  rewrite H, Hm in Hn. injection Hn as Hn.
  symmetry. exact (DecimalNat.Unsigned.to_uint_inj _ _ Hn).
Qed.

Lemma before_colon_digits d rest :
  before_colon (NilEmpty.string_of_uint d ++ String ":" rest)
  = NilEmpty.string_of_uint d.
Proof.
  induction d; cbn [NilEmpty.string_of_uint String.append before_colon];
    try (cbn [Ascii.eqb Bool.eqb]; rewrite IHd); reflexivity.
Qed.

Lemma before_colon_str_nat n rest :
  before_colon (str_nat n ++ String ":" rest) = str_nat n.
Proof.
  unfold str_nat, NilZero.string_of_uint.
  destruct (Nat.to_uint n); try apply before_colon_digits. reflexivity.
Qed.

Lemma append_inv_head p a b : (p ++ a = p ++ b)%string -> a = b.
Proof.
  induction p as [|c p IH]; cbn [String.append]; intros H; [exact H|].
  injection H as H. exact (IH H).
Qed.

Lemma numbered_text_inj p i j s s' :
  (p ++ str_nat i ++ String ":" s = p ++ str_nat j ++ String ":" s')%string ->
  i = j.
Proof.
  intros H. apply append_inv_head in H. apply (f_equal before_colon) in H.
  rewrite !before_colon_str_nat in H. exact (str_nat_inj i j H).
Qed.

(** X11.  The reports of two different rows never read the same: the
    text of each of the four row messages determines the row index,
    whatever the exception texts are. *)
Theorem row_messages_distinct i j :
  i <> j ->
  (forall e e', msg_parse i e <> msg_parse j e') /\
  (forall e e', msg_fetch i e <> msg_fetch j e') /\
  msg_not_ok i <> msg_not_ok j /\
  (forall e e', msg_process i e <> msg_process j e').
Proof.
  intros Hij. repeat split; try intros e e'; intros H; apply Hij;
    exact (numbered_text_inj _ i j _ _ H).
Qed.

Lemma row_messages_distinct_witness :
  msg_not_ok 1 <> msg_not_ok 12.
Proof.
  refine (proj1 (proj2 (proj2 (row_messages_distinct 1 12 _)))).
  intros H. discriminate H.
Defined.

(** ** The loop over a table in two parts *)

(** X12.  Going through a table is going through its first rows and
    then through the rest from the world the first rows have left: the
    page and the records of the whole are those of the first part
    followed by those of the second. *)
Theorem loop_splits {W} (env : Env W) mode gmaps rows1 rows2 w st1 :
  for_rows env mode gmaps rows1 (mkLoop [] [] w) = (st1, None) ->
  let whole := fst (for_rows env mode gmaps (rows1 ++ rows2) (mkLoop [] [] w)) in
  let rest := fst (for_rows env mode gmaps rows2 (mkLoop [] [] (world st1))) in
  trace whole = trace st1 ++ trace rest /\
  results whole = results st1 ++ results rest /\
  world whole = world rest.
Proof.
  intros H. cbv zeta.
  rewrite (for_rows_app env mode gmaps rows1 rows2 _ st1 H).
  destruct st1 as [tr rs w1]. rewrite for_rows_acc. cbn [world].
  destruct (for_rows env mode gmaps rows2 (mkLoop [] [] w1)) as [st e].
  repeat split.
Qed.

Lemma loop_splits_witness :
  let env := Demo.env (inr Demo.table) Demo.service in
  let client := Some (mkClient "AIzaKey") in
  let rows1 := firstn 1 (iterrows Demo.table) in
  let rows2 := skipn 1 (iterrows Demo.table) in
  let st1 := fst (for_rows env "driving" client rows1 (mkLoop [] [] 0)) in
  results (fst (for_rows env "driving" client (rows1 ++ rows2) (mkLoop [] [] 0)))
  = results st1
    ++ results (fst (for_rows env "driving" client rows2 (mkLoop [] [] (world st1)))).
Proof.
  cbv zeta.
  exact (proj1 (proj2
    (loop_splits (Demo.env (inr Demo.table) Demo.service) "driving"
       (Some (mkClient "AIzaKey")) (firstn 1 (iterrows Demo.table))
       (skipn 1 (iterrows Demo.table)) 0
       (fst (for_rows (Demo.env (inr Demo.table) Demo.service) "driving"
               (Some (mkClient "AIzaKey")) (firstn 1 (iterrows Demo.table))
               (mkLoop [] [] 0)))
       eq_refl))).
Defined.
